(** * Artificial Images Simulator (AIS): a shallow embedding of the
      operation-mode validation, the gain and image-name configuration,
      the channel models and the image composition.

    Two revisions of the simulator class live in the repository:
    - [src/code/AIS/AIS.py], class [Artificial_Image_Simulator];
    - [src/AIS/AIS.py],      class [Artificial_Images_Simulator].
    Each is embedded in a module of its own, named after the class.

    Python values are embedded as a small universe ([value]); exceptions are
    results of an error monad ([result]); the operation-mode dictionary is an
    insertion-ordered association list; binary64 numbers are Rocq's
    primitive floats. *)

From Stdlib Require Import ZArith List String Ascii Bool Lia.
From Stdlib Require Import Floats DecimalString QArith.
From Stdlib Require Import Permutation Reals Lra.
From Stdlib Require DecimalPos DecimalZ.
Import ListNotations.

Local Open Scope Z_scope.

(* ================================================================== *)
(** ** Exceptions and the error monad *)

Inductive exn : Set :=
| ValueError
| KeyError
| TypeError
| AttributeError.

Inductive result (A : Type) : Type :=
| Ok (a : A)
| Raise (e : exn).

Arguments Ok {A} a.
Arguments Raise {A} e.

Definition bind {A B : Type} (m : result A) (k : A -> result B) : result B :=
  match m with
  | Ok a => k a
  | Raise e => Raise e
  end.

Notation "'let*' x ':=' m 'in' k" := (bind m (fun x => k))
  (at level 10, x name, m at level 100, k at level 200).

(** [if c: raise e] *)
Definition raise_if (c : bool) (e : exn) : result unit :=
  if c then Raise e else Ok tt.

Definition succeeds {A : Type} (m : result A) : bool :=
  match m with Ok _ => true | Raise _ => false end.

(* ================================================================== *)
(** ** Python values *)

Module Py.

(** The type objects that the sources mention or that a value can have. *)
Inductive pytype : Set :=
| NoneType | ty_bool | ty_int | ty_float | ty_str | ty_type.

Definition pytype_eqb (s t : pytype) : bool :=
  match s, t with
  | NoneType, NoneType | ty_bool, ty_bool | ty_int, ty_int
  | ty_float, ty_float | ty_str, ty_str | ty_type, ty_type => true
  | _, _ => false
  end.

(** The values a caller can pass for a scalar argument or store in the
    operation-mode dictionary: [None], booleans, unbounded integers,
    binary64 floats, strings and type objects (the source compares a value
    against the classes [float] and [int]). *)
Inductive value : Set :=
| VNone
| VBool (b : bool)
| VInt (n : Z)
| VFloat (f : float)
| VStr (s : string)
| VType (t : pytype).

(** [type(v)] *)
Definition type_of (v : value) : pytype :=
  match v with
  | VNone => NoneType
  | VBool _ => ty_bool
  | VInt _ => ty_int
  | VFloat _ => ty_float
  | VStr _ => ty_str
  | VType _ => ty_type
  end.

(** Numbers: [bool] is a subclass of [int] and compares as 0 or 1. *)
Inductive num : Set :=
| NInt (n : Z)
| NFloat (f : float).

Definition as_num (v : value) : option num :=
  match v with
  | VBool b => Some (NInt (Z.b2z b))
  | VInt n => Some (NInt n)
  | VFloat f => Some (NFloat f)
  | _ => None
  end.

(** Python compares an [int] with a [float] exactly, by value: nothing is
    rounded.  [S754_finite s m e] is [(-1)^s * m * 2^e]. *)
Definition Z_SF_compare (n : Z) (x : spec_float) : option comparison :=
  match x with
  | S754_nan => None
  | S754_infinity s => Some (if s then Gt else Lt)
  | S754_zero _ => Some (n ?= 0)
  | S754_finite s m e =>
      let v := if s then Z.neg m else Z.pos m in
      Some (if 0 <=? e then n ?= v * 2 ^ e else n * 2 ^ (- e) ?= v)
  end.

Definition float_compare (f g : float) : option comparison :=
  match PrimFloat.compare f g with
  | FEq => Some Eq
  | FLt => Some Lt
  | FGt => Some Gt
  | FNotComparable => None
  end.

(** [None]: unordered (a NaN is involved). *)
Definition num_compare (a b : num) : option comparison :=
  match a, b with
  | NInt m, NInt n => Some (m ?= n)
  | NFloat f, NFloat g => float_compare f g
  | NInt m, NFloat g => Z_SF_compare m (Prim2SF g)
  | NFloat f, NInt n => option_map CompOpp (Z_SF_compare n (Prim2SF f))
  end.

(** [a == b] *)
Definition py_eq (a b : value) : bool :=
  match as_num a, as_num b with
  | Some x, Some y =>
      match num_compare x y with Some Eq => true | _ => false end
  | None, None =>
      match a, b with
      | VNone, VNone => true
      | VStr s, VStr t => String.eqb s t
      | VType s, VType t => pytype_eqb s t
      | _, _ => false
      end
  | _, _ => false
  end.

(** [a != b] *)
Definition py_ne (a b : value) : bool := negb (py_eq a b).

(** [a < b]: numbers by value, strings lexicographically, anything else is
    a [TypeError]. *)
Definition py_lt (a b : value) : result bool :=
  match as_num a, as_num b with
  | Some x, Some y =>
      Ok (match num_compare x y with Some Lt => true | _ => false end)
  | _, _ =>
      match a, b with
      | VStr s, VStr t => Ok (String.ltb s t)
      | _, _ => Raise TypeError
      end
  end.

(** [a > b] *)
Definition py_gt (a b : value) : result bool := py_lt b a.

(** [a <= b] *)
Definition py_le (a b : value) : result bool :=
  match as_num a, as_num b with
  | Some x, Some y =>
      Ok (match num_compare x y with
          | Some Lt | Some Eq => true
          | _ => false
          end)
  | _, _ =>
      match a, b with
      | VStr s, VStr t => Ok (String.leb s t)
      | _, _ => Raise TypeError
      end
  end.

(** [a >= b] *)
Definition py_ge (a b : value) : result bool := py_le b a.

(** [a or b] on two comparisons: the second is evaluated only when the
    first is false, and an exception of either propagates. *)
Definition py_or (a : result bool) (b : result bool) : result bool :=
  let* x := a in if x then Ok true else b.

(** [v in l] for a list literal [l]. *)
Definition py_in (v : value) (l : list value) : bool := existsb (py_eq v) l.

(** [type(v) in l] for a list of classes. *)
Definition type_in (v : value) (l : list pytype) : bool :=
  existsb (pytype_eqb (type_of v)) l.

(** The literals [0.1] and [1e-5] denote these binary64 numbers. *)
Definition f0_1 : float := 0x1.999999999999ap-4%float.
Definition f1e_5 : float := 0x1.4f8b588e368f1p-17%float.

(** *** Dictionaries

    A [dict] with string keys, in insertion order; no key occurs twice. *)
Definition dict : Set := list (string * value).

Definition wf_dict (d : dict) : Prop := NoDup (map fst d).

(** [list(d.keys())] *)
Definition keys (d : dict) : list string := map fst d.

Fixpoint lookup (d : dict) (k : string) : option value :=
  match d with
  | [] => None
  | (k', v) :: d' => if String.eqb k k' then Some v else lookup d' k
  end.

(** [d[k]] *)
Definition getitem (d : dict) (k : string) : result value :=
  match lookup d k with
  | Some v => Ok v
  | None => Raise KeyError
  end.

(** [k in l] for a list of strings. *)
Definition str_in (k : string) (l : list string) : bool :=
  existsb (String.eqb k) l.

(** [l.sort()] sorts the list in place and returns [None]; the sources only
    ever use the returned value. *)
Definition list_sort {A : Type} (l : list A) : value := VNone.

(** [for key in l: body(key)], with a body that can only raise. *)
Fixpoint for_each {A : Type} (l : list A) (body : A -> result unit)
  : result unit :=
  match l with
  | [] => Ok tt
  | x :: l' => let* _ := body x in for_each l' body
  end.

(** *** Strings *)

Definition backslash : string := String (ascii_of_nat 92) EmptyString.

(** [s[-1]], as a one-character string; an [IndexError] on the empty
    string is never reached in the sources (they test [s != ''] first). *)
Fixpoint last_char (s : string) : option ascii :=
  match s with
  | EmptyString => None
  | String c EmptyString => Some c
  | String _ s' => last_char s'
  end.

(** [str(n)] for an integer. *)
Definition str_int (n : Z) : string := NilZero.string_of_int (Z.to_int n).

Definition type_name (t : pytype) : string :=
  match t with
  | NoneType => "NoneType"
  | ty_bool => "bool"
  | ty_int => "int"
  | ty_float => "float"
  | ty_str => "str"
  | ty_type => "type"
  end.

(** [str(v)].  The decimal rendering of a binary64 number (the shortest
    string that reads back as the same number) belongs to the interpreter;
    it is the parameter [repr_float]. *)
Definition str (repr_float : float -> string) (v : value) : string :=
  match v with
  | VNone => "None"
  | VBool true => "True"
  | VBool false => "False"
  | VInt n => str_int n
  | VFloat f => repr_float f
  | VStr s => s
  | VType t => ("<class '" ++ type_name t ++ "'>")%string
  end.

End Py.

(* ================================================================== *)
(** ** [src/code/CHC/channel_creator.py]: the channels

    Temperatures and dark currents are real numbers here: the rounding of
    the binary64 products and of [np.exp] is not part of the model. *)

Module CHC.
Import Py.

Inductive channel_class : Set :=
| Abstract_Channel_Creator
| Concrete_Channel_1
| Concrete_Channel_2
| Concrete_Channel_3
| Concrete_Channel_4.

Definition _CHANNEL_ID (c : channel_class) : Z :=
  match c with
  | Abstract_Channel_Creator => 0
  | Concrete_Channel_1 => 1
  | Concrete_Channel_2 => 2
  | Concrete_Channel_3 => 3
  | Concrete_Channel_4 => 4
  end.

Definition _SERIAL_NUMBER (c : channel_class) : Z :=
  match c with
  | Abstract_Channel_Creator => 0
  | Concrete_Channel_1 => 9914
  | Concrete_Channel_2 => 9915
  | Concrete_Channel_3 => 9916
  | Concrete_Channel_4 => 9917
  end.

(** An instance: its class, the two attributes of [__init__], and the two
    that the calculations set ([None] until then). *)
Record channel : Type := {
  class : channel_class;
  ccd_temp : R;
  sparc4_acquisition_mode : value;
  dark_current : option R;
  read_noise : option Q
}.

Definition __init__ (c : channel_class) (ccd_temp : R)
    (sparc4_acquisition_mode : value) : channel :=
  {| class := c; ccd_temp := ccd_temp;
     sparc4_acquisition_mode := sparc4_acquisition_mode;
     dark_current := None; read_noise := None |}.

Definition get_channel_ID (self : channel) : string :=
  ("Channel " ++ str_int (_CHANNEL_ID (class self)))%string.

Definition get_serial_number (self : channel) : Z :=
  _SERIAL_NUMBER (class self).

Definition set_dark_current (self : channel) (x : R) : channel :=
  {| class := class self; ccd_temp := ccd_temp self;
     sparc4_acquisition_mode := sparc4_acquisition_mode self;
     dark_current := Some x; read_noise := read_noise self |}.

Definition set_read_noise (self : channel) (x : Q) : channel :=
  {| class := class self; ccd_temp := ccd_temp self;
     sparc4_acquisition_mode := sparc4_acquisition_mode self;
     dark_current := dark_current self; read_noise := Some x |}.

(** The method of the instance's class: the value returned and the
    instance afterwards. *)
Definition calculate_dark_current (self : channel) : R * channel :=
  let T := ccd_temp self in
  match class self with
  | Abstract_Channel_Creator => (0%R, self)
  | Concrete_Channel_1 =>
      let dc := (24.66 * exp (0.0015 * T ^ 2 + 0.29 * T))%R in
      (dc, set_dark_current self dc)
  | Concrete_Channel_2 =>
      let dc := (35.26 * exp (0.0019 * T ^ 2 + 0.31 * T))%R in
      (dc, set_dark_current self dc)
  | Concrete_Channel_3 =>
      let dc := (9.67 * exp (0.0012 * T ^ 2 + 0.25 * T))%R in
      (dc, set_dark_current self dc)
  | Concrete_Channel_4 =>
      let dc := (5.92 * exp (0.0005 * T ^ 2 + 0.18 * T))%R in
      (dc, set_dark_current self dc)
  end.

Section Read_noise.

(** The class [Read_Noise_Calculation] of the package [RNC] is not among
    the sources: its constructor and its method [calculate_read_noise]
    enter through what they return. *)
Context {RN : Type}.
Variable Read_Noise_Calculation : dict -> string -> result RN.
Variable RN_calculate_read_noise : RN -> result Q.

(** Lines 76-86. *)
Definition calculate_read_noise (self : channel) (ccd_operation_mode : dict)
  : result (Q * channel) :=
  let* RN :=
    Read_Noise_Calculation ccd_operation_mode (get_channel_ID self) in
  let* rn := RN_calculate_read_noise RN in
  Ok (rn, set_read_noise self rn).

End Read_noise.

(** An instance as a caller builds it from Python values, before any
    arithmetic is done on its temperature. *)
Record instance : Set := {
  instance_class : channel_class;
  instance_ccd_temp : value;
  instance_sparc4_acquisition_mode : value
}.

(** [c(a1, ..., an)], the call of one of the classes with positional
    arguments.
    The concrete classes define no [__init__] of their own, so the call
    binds the arguments to the parameters [ccd_temp] and
    [sparc4_acquisition_mode] of line 38, neither of which has a default:
    any number of arguments other than two is a [TypeError]. *)
Definition call (c : channel_class) (args : list value) : result instance :=
  match args with
  | [ccd_temp; sparc4_acquisition_mode] =>
      Ok {| instance_class := c; instance_ccd_temp := ccd_temp;
            instance_sparc4_acquisition_mode := sparc4_acquisition_mode |}
  | _ => Raise TypeError
  end.

End CHC.

(* ================================================================== *)
(** ** [src/code/AIS/AIS.py]: class [Artificial_Image_Simulator] *)

Module Artificial_Image_Simulator.
Import Py.

(** The attributes that [__init__] sets in lines 122-172.  The objects
    that its last lines build ([CHC], [PSF], [BGI], [HDR]) are used by
    [create_artificial_image] only, where they enter through what their
    methods return. *)
Record simulator : Set := {
  star_flux : value;
  sky_flux : value;
  gaussian_std : value;
  channel : value;
  bias_level : value;
  image_dir : string;
  ccd_gain : value;
  image_name : string
}.

(** The same object with another value of one attribute. *)
Definition with_bias_level (self : simulator) (v : value) : simulator :=
  {| star_flux := star_flux self; sky_flux := sky_flux self;
     gaussian_std := gaussian_std self; channel := channel self;
     bias_level := v; image_dir := image_dir self;
     ccd_gain := ccd_gain self; image_name := image_name self |}.

Definition with_image_dir (self : simulator) (s : string) : simulator :=
  {| star_flux := star_flux self; sky_flux := sky_flux self;
     gaussian_std := gaussian_std self; channel := channel self;
     bias_level := bias_level self; image_dir := s;
     ccd_gain := ccd_gain self; image_name := image_name self |}.

Definition check_star_flux (star_flux : value) : result value :=
  if negb (type_in star_flux [ty_int; ty_float]) then Raise ValueError
  else
    let* nonpos := py_le star_flux (VInt 0) in
    if nonpos then Raise ValueError else Ok star_flux.

Definition check_sky_flux (sky_flux : value) : result value :=
  if negb (type_in sky_flux [ty_int; ty_float]) then Raise ValueError
  else
    let* nonpos := py_le sky_flux (VInt 0) in
    if nonpos then Raise ValueError else Ok sky_flux.

Definition check_gaussian_std (gaussian_std : value) : result value :=
  if negb (pytype_eqb (type_of gaussian_std) ty_int) then Raise ValueError
  else
    let* nonpos := py_le gaussian_std (VInt 0) in
    if nonpos then Raise ValueError else Ok gaussian_std.

Definition check_channel (channel : value) : result value :=
  if py_in channel [VInt 1; VInt 2; VInt 3; VInt 4] then Ok channel
  else Raise ValueError.

(** Lines 153-159. *)
Definition check_bias_level (bias_level : value) : result value :=
  if negb (pytype_eqb (type_of bias_level) ty_int) then Raise ValueError
  else
    let* nonpos := py_le bias_level (VInt 0) in
    if nonpos then Raise ValueError else Ok bias_level.

(** Lines 161-168.  ['\\' not in image_dir[-1]] tests a one-character
    string for the one-character substring, that is, the last character for
    being a backslash. *)
Definition check_image_dir (image_dir : value) : result string :=
  match image_dir with
  | VStr s =>
      if py_ne (VStr s) (VStr "")
      then
        match last_char s with
        | Some c =>
            if negb (Ascii.eqb c (ascii_of_nat 92))
            then Ok (s ++ backslash)%string
            else Ok s
        | None => Ok s
        end
      else Ok s
  | _ => Raise ValueError
  end.

(** Lines 190-251. *)
Definition _verify_ccd_operation_mode (ccd_operation_mode : dict)
  : result unit :=
  let* em_mode := getitem ccd_operation_mode "em_mode" in
  let* em_gain := getitem ccd_operation_mode "em_gain" in
  let* hss := getitem ccd_operation_mode "hss" in
  let* preamp := getitem ccd_operation_mode "preamp" in
  let* binn := getitem ccd_operation_mode "binn" in
  let* t_exp := getitem ccd_operation_mode "t_exp" in
  let* ccd_temp := getitem ccd_operation_mode "ccd_temp" in
  let dic_keywords_list :=
    ["binn"; "ccd_temp"; "em_gain"; "em_mode"; "hss"; "preamp"; "t_exp"]
      %string in
  let* _ := for_each (keys ccd_operation_mode)
              (fun key => raise_if (negb (str_in key dic_keywords_list))
                                   ValueError) in
  let* _ := raise_if (py_ne (list_sort (keys ccd_operation_mode))
                            (list_sort dic_keywords_list)) ValueError in
  let* _ := raise_if (negb (py_in em_mode [VInt 0; VInt 1])) ValueError in
  let* _ :=
    if py_eq em_mode (VInt 0)
    then raise_if (py_ne em_gain (VInt 1)) ValueError
    else
      if negb (py_in em_gain [VType ty_float; VType ty_int])
      then Raise ValueError
      else
        let* out := py_or (py_lt em_gain (VInt 2))
                          (py_gt em_gain (VInt 300)) in
        raise_if out ValueError in
  let* _ := raise_if (negb (py_in preamp [VInt 1; VInt 2])) ValueError in
  let* _ := raise_if (negb (py_in hss [VFloat f0_1; VInt 1; VInt 10;
                                       VInt 20; VInt 30])) ValueError in
  let* _ := raise_if (negb (py_in binn [VInt 1; VInt 2])) ValueError in
  let* _ :=
    if negb (type_in t_exp [ty_float; ty_int]) then Raise ValueError
    else
      let* short := py_lt t_exp (VFloat f1e_5) in
      raise_if short ValueError in
  let* _ := raise_if (negb (type_in ccd_temp [ty_float; ty_int]))
                     ValueError in
  let* out := py_or (py_lt ccd_temp (VInt (-80)))
                    (py_gt ccd_temp (VInt 20)) in
  raise_if out ValueError.

(** Lines 286-305 of [_configure_gain]: the row of the spreadsheet. *)
Definition tab_index (ccd_operation_mode : dict) : result Z :=
  let* em_mode := getitem ccd_operation_mode "em_mode" in
  let* hss := getitem ccd_operation_mode "hss" in
  let* preamp := getitem ccd_operation_mode "preamp" in
  let* tab_index :=
    if py_eq hss (VFloat f0_1) then Ok 23
    else if py_eq hss (VInt 1)
         then Ok (if py_eq em_mode (VInt 1) then 15 else 19)
    else if py_eq hss (VInt 10) then Ok 11
    else if py_eq hss (VInt 20) then Ok 7
    else if py_eq hss (VInt 30) then Ok 3
    else Raise ValueError in
  Ok (if py_eq preamp (VInt 2) then tab_index + 2 else tab_index).

Section Environment.

(** The interpreter's rendering of floats, and the spreadsheet reader
    ([openpyxl.load_workbook(path).active], then [.cell(row, column).value]):
    a path either has no readable workbook or gives a sheet of cells. *)
Variable repr_float : float -> string.
Variable load_workbook : string -> result (Z -> Z -> value).

(** Lines 257-282. *)
Definition _configure_image_name (self_star_flux : value)
    (ccd_operation_mode : dict) (include_star_flux : bool) : result string :=
  let dic := ccd_operation_mode in
  let* g := getitem dic "em_gain" in
  let em_gain := ("_G" ++ str repr_float g)%string in
  let* m := getitem dic "em_mode" in
  let em_mode := (if py_eq m (VInt 1) then "EM" else "CONV")%string in
  let* h := getitem dic "hss" in
  let hss := ("_HSS" ++ str repr_float h)%string in
  let* p := getitem dic "preamp" in
  let preamp := ("_PA" ++ str repr_float p)%string in
  let* b := getitem dic "binn" in
  let binn := ("_B" ++ str repr_float b)%string in
  let* t := getitem dic "t_exp" in
  let t_exp := ("_TEXP" ++ str repr_float t)%string in
  let image_name :=
    (((((em_mode ++ hss) ++ preamp) ++ binn) ++ t_exp) ++ em_gain)%string in
  Ok (if include_star_flux
      then (image_name ++ "_S" ++ str repr_float self_star_flux)%string
      else image_name).

Definition spreadsheet_path (channel : value) : string :=
  ("RNC" ++ backslash ++ "spreadsheet" ++ backslash ++ "Channel "
     ++ str repr_float channel
     ++ backslash ++ "Read_noise_and_gain_values.xlsx")%string.

(** Lines 284-310. *)
Definition _configure_gain (self_channel : value) (ccd_operation_mode : dict)
  : result value :=
  let* i := tab_index ccd_operation_mode in
  let* spreadsheet := load_workbook (spreadsheet_path self_channel) in
  Ok (spreadsheet i 5).

(** The classes [Point_Spread_Function], [Background_Image] and [Header]
    are not among the sources: the calls of lines 184-188 either raise or
    give an object.  [None] for the channel stands for the initial
    [CHC = 0]. *)
Context {PSF BGI HDR : Type}.
Variable Point_Spread_Function :
  option CHC.instance -> dict -> value -> value -> result PSF.
Variable Background_Image : option CHC.instance -> dict -> value -> result BGI.
Variable Header : dict -> value -> Z -> result HDR.

(** Lines 113-188.  Each branch of lines 175-182 calls its class with the
    one argument [ccd_operation_mode['ccd_temp']]; [0.get_serial_number()]
    would be an [AttributeError]. *)
Definition __init__ (star_flux sky_flux gaussian_std : value)
    (ccd_operation_mode : dict) (channel bias_level image_dir : value)
  : result simulator :=
  let* star_flux := check_star_flux star_flux in
  let* sky_flux := check_sky_flux sky_flux in
  let* gaussian_std := check_gaussian_std gaussian_std in
  let* channel := check_channel channel in
  let* bias_level := check_bias_level bias_level in
  let* image_dir := check_image_dir image_dir in
  let* _ := _verify_ccd_operation_mode ccd_operation_mode in
  let* ccd_gain := _configure_gain channel ccd_operation_mode in
  let* image_name :=
    _configure_image_name star_flux ccd_operation_mode false in
  let Concrete_Channel c :=
    let* ccd_temp := getitem ccd_operation_mode "ccd_temp" in
    let* o := CHC.call c [ccd_temp] in
    Ok (Some o) in
  let* CHC :=
    if py_eq channel (VInt 1) then Concrete_Channel CHC.Concrete_Channel_1
    else if py_eq channel (VInt 2) then Concrete_Channel CHC.Concrete_Channel_2
    else if py_eq channel (VInt 3) then Concrete_Channel CHC.Concrete_Channel_3
    else if py_eq channel (VInt 4) then Concrete_Channel CHC.Concrete_Channel_4
    else Ok None in
  let* _ :=
    Point_Spread_Function CHC ccd_operation_mode ccd_gain gaussian_std in
  let* _ := Background_Image CHC ccd_operation_mode ccd_gain in
  let* serial_number :=
    match CHC with
    | Some o => Ok (CHC._SERIAL_NUMBER (CHC.instance_class o))
    | None => Raise AttributeError
    end in
  let* _ := Header ccd_operation_mode ccd_gain serial_number in
  Ok {| star_flux := star_flux; sky_flux := sky_flux;
        gaussian_std := gaussian_std; channel := channel;
        bias_level := bias_level; image_dir := image_dir;
        ccd_gain := ccd_gain; image_name := image_name |}.

End Environment.

Section Synthesis.

(** The collaborators of [create_artificial_image] are not among the
    sources: the background generator [BGI] (stochastic: it threads the
    state [rng] of the random generator), the star generator [PSF] and the
    header builder [HDR].  They enter through what their methods return.
    Pixels are the elements of the numpy arrays, with their addition. *)
Variables (pixel header rng : Type).
Variable pixel_add : pixel -> pixel -> pixel.

(** A two-dimensional array, row by row; every row has the same length. *)
Definition ndarray : Type := list (list pixel).

Variable create_background_image : rng -> result (ndarray * rng).
Variable create_star_PSF : result ndarray.
Variable create_header : result header.

(** One axis of numpy's [+]: equal lengths add element by element, an axis
    of length one is stretched over the other, anything else is a
    [ValueError] (operands could not be broadcast together). *)
Fixpoint zip_with {A : Type} (f : A -> A -> result A) (l1 l2 : list A)
  : result (list A) :=
  match l1, l2 with
  | x :: l1', y :: l2' =>
      let* z := f x y in
      let* l := zip_with f l1' l2' in
      Ok (z :: l)
  | _, _ => Ok []
  end.

Definition broadcast {A : Type} (f : A -> A -> result A) (l1 l2 : list A)
  : result (list A) :=
  if (List.length l1 =? List.length l2)%nat then zip_with f l1 l2
  else
    match l1, l2 with
    | [x], _ => zip_with f (repeat x (List.length l2)) l2
    | _, [y] => zip_with f l1 (repeat y (List.length l1))
    | _, _ => Raise ValueError
    end.

(** [a + b] on arrays. *)
Definition ndarray_add (a b : ndarray) : result ndarray :=
  broadcast (broadcast (fun x y => Ok (pixel_add x y))) a b.

(** The files written so far, by path: [fits.writeto(path, data,
    overwrite=True, header=header)] replaces what the path held. *)
Definition filesystem : Type := string -> option (ndarray * header).

Definition writeto (fs : filesystem) (path : string) (data : ndarray)
    (hdr : header) : filesystem :=
  fun p => if String.eqb p path then Some (data, hdr) else fs p.

Definition fits_path (self : simulator) : string :=
  (image_dir self ++ image_name self ++ ".fits")%string.

(** Lines 312-330. *)
Definition create_artificial_image (self : simulator) (fs : filesystem)
    (g : rng) : result (filesystem * rng) :=
  let* bg := create_background_image g in
  let background := fst bg in
  let* star_PSF := create_star_PSF in
  let* header := create_header in
  let* data := ndarray_add background star_PSF in
  Ok (writeto fs (fits_path self) data header, snd bg).

(** [a[i][j]] *)
Definition pixel_at (a : ndarray) (i j : nat) : option pixel :=
  match nth_error a i with
  | Some row => nth_error row j
  | None => None
  end.

(** An [m] by [n] array. *)
Definition has_shape (a : ndarray) (m n : nat) : Prop :=
  List.length a = m /\ Forall (fun row => List.length row = n) a.

End Synthesis.

End Artificial_Image_Simulator.

(* ================================================================== *)
(** ** [src/AIS/AIS.py]: class [Artificial_Images_Simulator] *)

Module Artificial_Images_Simulator.
Import Py.

Record simulator : Set := {
  star_flux : value;
  sky_flux : value;
  gaussian_stddev : value;
  ccd_operation_mode : dict;
  channel : value;
  bias_level : value;
  image_dir : string;
  image_name : string;
  dark_current : value;
  read_noise : value;
  gain : value;
  hdr : list value
}.

(** The same object with another value of one attribute. *)
Definition with_bias_level (self : simulator) (v : value) : simulator :=
  {| star_flux := star_flux self; sky_flux := sky_flux self;
     gaussian_stddev := gaussian_stddev self;
     ccd_operation_mode := ccd_operation_mode self;
     channel := channel self; bias_level := v;
     image_dir := image_dir self; image_name := image_name self;
     dark_current := dark_current self; read_noise := read_noise self;
     gain := gain self; hdr := hdr self |}.

Definition with_image_dir (self : simulator) (s : string) : simulator :=
  {| star_flux := star_flux self; sky_flux := sky_flux self;
     gaussian_stddev := gaussian_stddev self;
     ccd_operation_mode := ccd_operation_mode self;
     channel := channel self; bias_level := bias_level self;
     image_dir := s; image_name := image_name self;
     dark_current := dark_current self; read_noise := read_noise self;
     gain := gain self; hdr := hdr self |}.

Definition check_star_flux (star_flux : value) : result value :=
  if negb (type_in star_flux [ty_int; ty_float]) then Raise ValueError
  else
    let* pos := py_gt star_flux (VInt 0) in
    if pos then Ok star_flux else Raise ValueError.

Definition check_sky_flux (sky_flux : value) : result value :=
  if negb (type_in sky_flux [ty_int; ty_float]) then Raise ValueError
  else
    let* pos := py_gt sky_flux (VInt 0) in
    if pos then Ok sky_flux else Raise ValueError.

Definition check_gaussian_stddev (gaussian_stddev : value) : result value :=
  if negb (pytype_eqb (type_of gaussian_stddev) ty_int) then Raise ValueError
  else
    let* pos := py_gt gaussian_stddev (VInt 0) in
    if pos then Ok gaussian_stddev else Raise ValueError.

Definition check_channel (channel : value) : result value :=
  if py_in channel [VInt 1; VInt 2; VInt 3; VInt 4] then Ok channel
  else Raise ValueError.

(** Lines 161-167. *)
Definition check_bias_level (bias_level : value) : result value :=
  if negb (pytype_eqb (type_of bias_level) ty_int) then Raise ValueError
  else
    let* nonneg := py_ge bias_level (VInt 0) in
    if nonneg then Ok bias_level else Raise ValueError.

(** Lines 169-176. *)
Definition check_image_dir (image_dir : value) : result string :=
  match image_dir with
  | VStr s =>
      if py_ne (VStr s) (VStr "")
      then
        match last_char s with
        | Some c =>
            if negb (Ascii.eqb c (ascii_of_nat 92))
            then Ok (s ++ backslash)%string
            else Ok s
        | None => Ok s
        end
      else Ok s
  | _ => Raise ValueError
  end.

Definition dic_keywords_list : list string :=
  ["em_mode"; "em_gain"; "preamp"; "hss"; "bin"; "t_exp"; "ccd_temp"]%string.

(** [l1 != l2] on lists of strings. *)
Definition list_ne (l1 l2 : list string) : bool :=
  if list_eq_dec string_dec l1 l2 then false else true.

(** Lines 197-236. *)
Definition _verify_ccd_operation_mode (ccd_operation_mode : dict)
  : result unit :=
  let d := ccd_operation_mode in
  let* _ := for_each (keys d)
              (fun key => raise_if (negb (str_in key dic_keywords_list))
                                   ValueError) in
  let* _ := raise_if (list_ne (keys d) dic_keywords_list) ValueError in
  let* em_mode := getitem d "em_mode" in
  let* _ := raise_if (negb (py_in em_mode [VInt 0; VInt 1])) ValueError in
  let* em_mode := getitem d "em_mode" in
  let* _ :=
    if py_eq em_mode (VInt 0)
    then
      let* em_gain := getitem d "em_gain" in
      raise_if (py_ne em_gain (VInt 1)) ValueError
    else
      let* out := py_or (let* em_gain := getitem d "em_gain" in
                         py_lt em_gain (VInt 2))
                        (let* em_gain := getitem d "em_gain" in
                         py_gt em_gain (VInt 300)) in
      raise_if out ValueError in
  let* preamp := getitem d "preamp" in
  let* _ := raise_if (negb (py_in preamp [VInt 1; VInt 2])) ValueError in
  let* hss := getitem d "hss" in
  let* _ := raise_if (negb (py_in hss [VFloat f0_1; VInt 1; VInt 10;
                                       VInt 20; VInt 30])) ValueError in
  let* bin := getitem d "bin" in
  let* _ := raise_if (negb (py_in bin [VInt 1; VInt 2])) ValueError in
  let* t_exp := getitem d "t_exp" in
  let* short := py_lt t_exp (VFloat f1e_5) in
  let* _ := raise_if short ValueError in
  let* out := py_or (let* ccd_temp := getitem d "ccd_temp" in
                     py_lt ccd_temp (VInt (-80)))
                    (let* ccd_temp := getitem d "ccd_temp" in
                     py_gt ccd_temp (VInt 20)) in
  raise_if out ValueError.

(** Lines 119-195, up to the attributes; the collaborators built in lines
    178-190 are not used by anything embedded from this revision. *)
Definition __init__ (star_flux sky_flux gaussian_stddev : value)
    (ccd_operation_mode : dict) (channel bias_level image_dir : value)
  : result simulator :=
  let* star_flux := check_star_flux star_flux in
  let* sky_flux := check_sky_flux sky_flux in
  let* gaussian_stddev := check_gaussian_stddev gaussian_stddev in
  let* _ := _verify_ccd_operation_mode ccd_operation_mode in
  let* channel := check_channel channel in
  let* bias_level := check_bias_level bias_level in
  let* image_dir := check_image_dir image_dir in
  Ok {| star_flux := star_flux; sky_flux := sky_flux;
        gaussian_stddev := gaussian_stddev;
        ccd_operation_mode := ccd_operation_mode;
        channel := channel; bias_level := bias_level;
        image_dir := image_dir; image_name := "";
        dark_current := VInt 0; read_noise := VInt 0; gain := VInt 0;
        hdr := [] |}.

Section Environment.

Variable repr_float : float -> string.

(** Lines 242-266. *)
Definition _configure_image_name (self : simulator)
    (include_star_flux : bool) : result string :=
  let dic := ccd_operation_mode self in
  let* g := getitem dic "em_gain" in
  let em_gain := ("_G" ++ str repr_float g)%string in
  let* m := getitem dic "em_mode" in
  let em_mode := (if py_eq m (VInt 1) then "EM" else "CONV")%string in
  let* h := getitem dic "hss" in
  let hss := ("_HSS" ++ str repr_float h)%string in
  let* p := getitem dic "preamp" in
  let preamp := ("_PA" ++ str repr_float p)%string in
  let* b := getitem dic "bin" in
  let binn := ("_B" ++ str repr_float b)%string in
  let* t := getitem dic "t_exp" in
  let t_exp := ("_TEXP" ++ str repr_float t)%string in
  let image_name :=
    (((((em_mode ++ hss) ++ preamp) ++ binn) ++ t_exp) ++ em_gain)%string in
  Ok (if include_star_flux
      then (image_name ++ "_S" ++ str repr_float (star_flux self))%string
      else image_name).

End Environment.

End Artificial_Images_Simulator.

(* ================================================================== *)
(** ** The channel of a simulator *)

Module Selection.
Import Py.

(** [src/code/AIS/AIS.py], lines 174-182, and [src/AIS/AIS.py], lines
    178-186: the class that [__init__] instantiates for [self.CHC]; [None]
    stands for the initial [CHC = 0], which no branch has replaced. *)
Definition CHC_class (channel : value) : option CHC.channel_class :=
  if py_eq channel (VInt 1) then Some CHC.Concrete_Channel_1
  else if py_eq channel (VInt 2) then Some CHC.Concrete_Channel_2
  else if py_eq channel (VInt 3) then Some CHC.Concrete_Channel_3
  else if py_eq channel (VInt 4) then Some CHC.Concrete_Channel_4
  else None.

(** The path of the workbook for a directory name, as [_configure_gain]
    of [src/code/AIS/AIS.py] builds it around [Channel {self.channel}]. *)
Definition workbook_of (channel_directory : string) : string :=
  ("RNC" ++ backslash ++ "spreadsheet" ++ backslash ++ channel_directory
     ++ backslash ++ "Read_noise_and_gain_values.xlsx")%string.

(** A string without the character [_]. *)
Definition no_underscore (s : string) : Prop :=
  ~ In "_"%char (list_ascii_of_string s).

End Selection.

(* ================================================================== *)
(** ** Concrete inputs *)

Module Inputs.
Import Py.

(** A conventional mode, with the keys of [src/code/AIS/AIS.py]. *)
Definition conventional : dict :=
  [ ("em_mode", VInt 0); ("em_gain", VInt 1); ("preamp", VInt 1);
    ("hss", VInt 1); ("binn", VInt 1); ("t_exp", VInt 1);
    ("ccd_temp", VInt (-70)) ]%string.

(** An electron-multiplying mode with gain 2. *)
Definition electron_multiplying : dict :=
  [ ("em_mode", VInt 1); ("em_gain", VInt 2); ("preamp", VInt 1);
    ("hss", VInt 1); ("binn", VInt 1); ("t_exp", VInt 1);
    ("ccd_temp", VInt (-70)) ]%string.

(** The conventional mode without its temperature. *)
Definition no_temperature : dict :=
  [ ("em_mode", VInt 0); ("em_gain", VInt 1); ("preamp", VInt 1);
    ("hss", VInt 1); ("binn", VInt 1); ("t_exp", VInt 1) ]%string.

(** The conventional mode with the keys of [src/AIS/AIS.py], in the
    order of its keyword list, and with the first two keys exchanged. *)
Definition conventional_bin : dict :=
  [ ("em_mode", VInt 0); ("em_gain", VInt 1); ("preamp", VInt 1);
    ("hss", VInt 1); ("bin", VInt 1); ("t_exp", VInt 1);
    ("ccd_temp", VInt (-70)) ]%string.

(** An electron-multiplying mode of [src/AIS/AIS.py] with gain [g]. *)
Definition electron_multiplying_bin (g : value) : dict :=
  [ ("em_mode", VInt 1); ("em_gain", g); ("preamp", VInt 1);
    ("hss", VInt 1); ("bin", VInt 1); ("t_exp", VInt 1);
    ("ccd_temp", VInt (-70)) ]%string.

(** The conventional mode with one more key. *)
Definition one_more_key : dict :=
  [ ("em_mode", VInt 0); ("em_gain", VInt 1); ("preamp", VInt 1);
    ("hss", VInt 1); ("binn", VInt 1); ("t_exp", VInt 1);
    ("ccd_temp", VInt (-70)); ("gain", VInt 2) ]%string.

Definition conventional_bin_swapped : dict :=
  [ ("em_gain", VInt 1); ("em_mode", VInt 0); ("preamp", VInt 1);
    ("hss", VInt 1); ("bin", VInt 1); ("t_exp", VInt 1);
    ("ccd_temp", VInt (-70)) ]%string.

(** An environment: every float prints as [?], every workbook is read,
    and the cell of row [r] and column [c] holds [100 r + c]. *)
Definition repr_float (f : float) : string := "?"%string.

Definition load_workbook (path : string) : result (Z -> Z -> value) :=
  Ok (fun r c => VInt (100 * r + c)).

(** Collaborators that are built without an exception. *)
Definition Point_Spread_Function (CHC : option CHC.instance)
    (ccd_operation_mode : dict) (ccd_gain gaussian_std : value)
  : result unit := Ok tt.

Definition Background_Image (CHC : option CHC.instance)
    (ccd_operation_mode : dict) (ccd_gain : value) : result unit := Ok tt.

Definition Header (ccd_operation_mode : dict) (ccd_gain : value)
    (serial_number : Z) : result unit := Ok tt.

(** The conventional mode at a temperature that is not a number, and
    with an exposure time that is not a number. *)
Definition nan_temperature : dict :=
  [ ("em_mode", VInt 0); ("em_gain", VInt 1); ("preamp", VInt 1);
    ("hss", VInt 1); ("binn", VInt 1); ("t_exp", VInt 1);
    ("ccd_temp", VFloat nan) ]%string.

Definition nan_exposure : dict :=
  [ ("em_mode", VInt 0); ("em_gain", VInt 1); ("preamp", VInt 1);
    ("hss", VInt 1); ("binn", VInt 1); ("t_exp", VFloat nan);
    ("ccd_temp", VInt (-70)) ]%string.

(** The conventional mode of each revision with a string for the
    exposure time. *)
Definition string_exposure : dict :=
  [ ("em_mode", VInt 0); ("em_gain", VInt 1); ("preamp", VInt 1);
    ("hss", VInt 1); ("binn", VInt 1); ("t_exp", VStr "1");
    ("ccd_temp", VInt (-70)) ]%string.

Definition string_exposure_bin : dict :=
  [ ("em_mode", VInt 0); ("em_gain", VInt 1); ("preamp", VInt 1);
    ("hss", VInt 1); ("bin", VInt 1); ("t_exp", VStr "1");
    ("ccd_temp", VInt (-70)) ]%string.

(** A simulator of [src/code/AIS/AIS.py] as its constructor leaves it for
    the conventional mode, and two frames of two rows and two columns. *)
Definition simulator : Artificial_Image_Simulator.simulator :=
  {| Artificial_Image_Simulator.star_flux := VInt 100;
     Artificial_Image_Simulator.sky_flux := VInt 50;
     Artificial_Image_Simulator.gaussian_std := VInt 3;
     Artificial_Image_Simulator.channel := VInt 1;
     Artificial_Image_Simulator.bias_level := VInt 500;
     Artificial_Image_Simulator.image_dir := "";
     Artificial_Image_Simulator.ccd_gain := VInt 1905;
     Artificial_Image_Simulator.image_name := "CONV_HSS1_PA1_B1_TEXP1_G1" |}.

Definition background : list (list Z) := [[500; 501]; [502; 503]].
Definition star : list (list Z) := [[1; 20]; [300; 4000]].

End Inputs.

(* ================================================================== *)
(** ** The words of the specification *)

(** The seven keys of an operation mode. *)
Definition keywords : list string :=
  ["em_mode"; "em_gain"; "preamp"; "hss"; "binn"; "t_exp"; "ccd_temp"]%string.

(** The coefficients (a, b, c) of the dark current [a exp(b T^2 + c T)] of
    a channel, by its number. *)
Definition dark_current_coefficients (channel_id : Z) : option (R * R * R) :=
  match channel_id with
  | 1 => Some (24.66, 0.0015, 0.29)%R
  | 2 => Some (35.26, 0.0019, 0.31)%R
  | 3 => Some (9.67, 0.0012, 0.25)%R
  | 4 => Some (5.92, 0.0005, 0.18)%R
  | _ => None
  end.

(** Short names of the two revisions. *)
Module A := Artificial_Image_Simulator.
Module B := Artificial_Images_Simulator.

(* ================================================================== *)
(** * Properties *)

(** ** Comparisons of Python numbers *)

Section Comparisons.
Import Py.

Lemma Prim2SF_f0_1 :
  Prim2SF f0_1 = S754_finite false 7205759403792794 (-56).
Proof. reflexivity. Qed.

Lemma Prim2SF_f1e_5 :
  Prim2SF f1e_5 = S754_finite false 5902958103587057 (-69).
Proof. reflexivity. Qed.

(** Two distinct integers are never equal to the same number. *)
Lemma Z_SF_compare_Eq_inj (j k : Z) (x : spec_float) :
  Z_SF_compare j x = Some Eq -> Z_SF_compare k x = Some Eq -> j = k.
Proof.
  destruct x as [s | s | | s m e]; simpl; try discriminate.
  - intros Hj Hk. injection Hj as Hj. injection Hk as Hk.
    apply Z.compare_eq in Hj, Hk. congruence.
  - destruct s; discriminate.
  - destruct (0 <=? e) eqn:He; intros Hj Hk;
      injection Hj as Hj; injection Hk as Hk;
      apply Z.compare_eq in Hj, Hk.
    + congruence.
    + apply Z.leb_gt in He.
      assert (0 < 2 ^ (- e)) by (apply Z.pow_pos_nonneg; lia).
      apply Z.mul_reg_r with (p := 2 ^ (- e)); [lia | congruence].
Qed.

Lemma CompOpp_Eq (c : comparison) : CompOpp c = Eq -> c = Eq.
Proof. destruct c; simpl; congruence. Qed.

Lemma py_eq_int_unique (v : value) (j k : Z) :
  py_eq v (VInt j) = true -> py_eq v (VInt k) = true -> j = k.
Proof.
  destruct v as [ | b | n | f | s | t]; unfold py_eq; simpl;
    try discriminate.
  - destruct (Z.b2z b ?= j) eqn:Hj; try discriminate.
    destruct (Z.b2z b ?= k) eqn:Hk; try discriminate.
    apply Z.compare_eq in Hj, Hk. congruence.
  - destruct (n ?= j) eqn:Hj; try discriminate.
    destruct (n ?= k) eqn:Hk; try discriminate.
    apply Z.compare_eq in Hj, Hk. congruence.
  - destruct (Z_SF_compare j (Prim2SF f)) as [cj | ] eqn:Hj;
      simpl; try discriminate.
    destruct (Z_SF_compare k (Prim2SF f)) as [ck | ] eqn:Hk;
      simpl; try discriminate.
    destruct (CompOpp cj) eqn:Ej; try discriminate.
    destruct (CompOpp ck) eqn:Ek; try discriminate.
    apply CompOpp_Eq in Ej, Ek. subst cj ck. intros _ _.
    eapply Z_SF_compare_Eq_inj; eassumption.
Qed.

(** A float equal to a finite [y] has the representation of [y]. *)
Lemma SFcompare_Eq_finite (x : spec_float) (s : bool) (m : positive) (e : Z) :
  SFcompare x (S754_finite s m e) = Some Eq -> x = S754_finite s m e.
Proof.
  destruct x as [s' | s' | | s' m' e']; simpl; try discriminate.
  - destruct s; discriminate.
  - destruct s'; discriminate.
  - destruct s', s; try discriminate;
      destruct (e' ?= e) eqn:He; try discriminate;
      apply Z.compare_eq in He; subst e';
      intros H; injection H as H.
    + apply CompOpp_Eq in H.
      apply Pos.compare_eq in H. now subst.
    + apply Pos.compare_eq in H. now subst.
Qed.

Lemma float_compare_Eq_finite (f g : float) (s : bool) (m : positive) (e : Z) :
  Prim2SF g = S754_finite s m e ->
  float_compare f g = Some Eq -> Prim2SF f = S754_finite s m e.
Proof.
  intros Hg. unfold float_compare. rewrite FloatAxioms.compare_spec, Hg.
  destruct (SFcompare (Prim2SF f) (S754_finite s m e)) as [[ | | ] | ] eqn:H;
    simpl; try discriminate.
  intros _. now apply SFcompare_Eq_finite.
Qed.

(** No integer equals the binary64 number nearest to one tenth. *)
Lemma py_eq_f0_1_not_int (v : value) (k : Z) :
  py_eq v (VFloat f0_1) = true -> py_eq v (VInt k) = false.
Proof.
  assert (Hint : forall n, Z_SF_compare n (Prim2SF f0_1) <> Some Eq).
  { intros n. rewrite Prim2SF_f0_1. simpl. intros H. injection H as H.
    apply Z.compare_eq in H. lia. }
  destruct v as [ | b | n | f | s | t]; unfold py_eq; simpl;
    try discriminate.
  - destruct (Z_SF_compare (Z.b2z b) (Prim2SF f0_1)) as [[ | | ] | ] eqn:H;
      try discriminate. now apply Hint in H.
  - destruct (Z_SF_compare n (Prim2SF f0_1)) as [[ | | ] | ] eqn:H;
      try discriminate. now apply Hint in H.
  - destruct (float_compare f f0_1) as [[ | | ] | ] eqn:H; try discriminate.
    intros _. apply (float_compare_Eq_finite _ _ _ _ _ Prim2SF_f0_1) in H.
    rewrite H, <- Prim2SF_f0_1. specialize (Hint k).
    destruct (Z_SF_compare k (Prim2SF f0_1)) as [[ | | ] | ];
      try reflexivity.
    now destruct Hint.
Qed.

Lemma py_eq_int_other (v : value) (j k : Z) :
  j <> k -> py_eq v (VInt j) = true -> py_eq v (VInt k) = false.
Proof.
  intros Hjk Hj. destruct (py_eq v (VInt k)) eqn:Hk; [ | reflexivity].
  now destruct Hjk; apply (py_eq_int_unique v).
Qed.

End Comparisons.


(** ** The error monad *)

Section Monad.

Lemma bind_Ok {A B : Type} (m : result A) (k : A -> result B) (b : B) :
  bind m k = Ok b -> exists a, m = Ok a /\ k a = Ok b.
Proof. destruct m as [a | e]; simpl; [eauto | discriminate]. Qed.

Lemma raise_if_Ok (c : bool) (e : exn) (u : unit) :
  raise_if c e = Ok u -> c = false.
Proof. destruct c; simpl; [discriminate | reflexivity]. Qed.

Lemma raise_if_cases (c : bool) (e : exn) :
  raise_if c e = Ok tt \/ raise_if c e = Raise e.
Proof. destruct c; simpl; auto. Qed.

(** A loop whose body passes on every element passes. *)
Lemma for_each_Ok {A : Type} (l : list A) (body : A -> result unit) :
  (forall x, In x l -> body x = Ok tt) -> Py.for_each l body = Ok tt.
Proof.
  induction l as [ | x l IH]; simpl; intros H; [reflexivity | ].
  rewrite (H x) by auto. simpl. apply IH. auto.
Qed.

(** A loop whose body can only raise [e] passes or raises [e]. *)
Lemma for_each_cases {A : Type} (l : list A) (body : A -> result unit)
    (e : exn) :
  (forall x, body x = Ok tt \/ body x = Raise e) ->
  Py.for_each l body = Ok tt \/ Py.for_each l body = Raise e.
Proof.
  intros H. induction l as [ | x l IH]; simpl; [auto | ].
  destruct (H x) as [Hx | Hx]; rewrite Hx; simpl; auto.
Qed.

(** A loop whose body raises [e] on an element, and can only raise [e],
    raises [e]. *)
Lemma for_each_Raise {A : Type} (l : list A) (body : A -> result unit)
    (e : exn) (x : A) :
  (forall y, body y = Ok tt \/ body y = Raise e) ->
  In x l -> body x = Raise e -> Py.for_each l body = Raise e.
Proof.
  intros H Hin Hx. induction l as [ | y l IH]; simpl; [contradiction | ].
  destruct (H y) as [Hy | Hy]; rewrite Hy; simpl; [ | reflexivity].
  destruct Hin as [-> | Hin]; [congruence | now apply IH].
Qed.

End Monad.

(** From [bind m k = Ok b] to the results of the steps. *)
Ltac inv_bind H :=
  let a := fresh "a" in
  let Ha := fresh "Ha" in
  apply bind_Ok in H; destruct H as (a & Ha & H).

(** ** The scalar checks of the constructors *)

Section Scalar_checks.
Import Py.

Ltac check_cases v :=
  destruct v; simpl; auto;
  match goal with
  | |- context [if ?c then _ else _] => destruct c
  end; auto.

Lemma A_check_star_flux_cases (v : value) :
  A.check_star_flux v = Ok v \/ A.check_star_flux v = Raise ValueError.
Proof. unfold A.check_star_flux, py_le. check_cases v. Qed.

Lemma A_check_sky_flux_cases (v : value) :
  A.check_sky_flux v = Ok v \/ A.check_sky_flux v = Raise ValueError.
Proof. unfold A.check_sky_flux, py_le. check_cases v. Qed.

Lemma A_check_gaussian_std_cases (v : value) :
  A.check_gaussian_std v = Ok v \/ A.check_gaussian_std v = Raise ValueError.
Proof. unfold A.check_gaussian_std, py_le. check_cases v. Qed.

Lemma A_check_channel_cases (v : value) :
  A.check_channel v = Ok v \/ A.check_channel v = Raise ValueError.
Proof. unfold A.check_channel. destruct (py_in v _); auto. Qed.

Lemma B_check_star_flux_cases (v : value) :
  B.check_star_flux v = Ok v \/ B.check_star_flux v = Raise ValueError.
Proof. unfold B.check_star_flux, py_gt, py_lt. check_cases v. Qed.

Lemma B_check_sky_flux_cases (v : value) :
  B.check_sky_flux v = Ok v \/ B.check_sky_flux v = Raise ValueError.
Proof. unfold B.check_sky_flux, py_gt, py_lt. check_cases v. Qed.

Lemma B_check_gaussian_stddev_cases (v : value) :
  B.check_gaussian_stddev v = Ok v
  \/ B.check_gaussian_stddev v = Raise ValueError.
Proof. unfold B.check_gaussian_stddev, py_gt, py_lt. check_cases v. Qed.

Lemma B_check_channel_cases (v : value) :
  B.check_channel v = Ok v \/ B.check_channel v = Raise ValueError.
Proof. unfold B.check_channel. destruct (py_in v _); auto. Qed.

Lemma B_check_bias_level_cases (v : value) :
  B.check_bias_level v = Ok v \/ B.check_bias_level v = Raise ValueError.
Proof. unfold B.check_bias_level, py_ge, py_le. check_cases v. Qed.

(** The bias level, by type and sign. *)
Lemma A_check_bias_level_not_int (v : value) :
  type_of v <> ty_int -> A.check_bias_level v = Raise ValueError.
Proof. unfold A.check_bias_level. destruct v; simpl; congruence. Qed.

Lemma A_check_bias_level_int (n : Z) :
  A.check_bias_level (VInt n)
  = if n <=? 0 then Raise ValueError else Ok (VInt n).
Proof.
  destruct n; reflexivity.
Qed.

Lemma B_check_bias_level_not_int (v : value) :
  type_of v <> ty_int -> B.check_bias_level v = Raise ValueError.
Proof. unfold B.check_bias_level. destruct v; simpl; congruence. Qed.

Lemma B_check_bias_level_int (n : Z) :
  B.check_bias_level (VInt n)
  = if 0 <=? n then Ok (VInt n) else Raise ValueError.
Proof.
  destruct n; reflexivity.
Qed.






End Scalar_checks.

(** ** The constructors, one argument at a time *)

Section Constructors.
Import Py.

Variable repr_float : float -> string.
Variable load_workbook : string -> result (Z -> Z -> value).
Context {PSF BGI HDR : Type}.
Variable Point_Spread_Function :
  option CHC.instance -> dict -> value -> value -> result PSF.
Variable Background_Image : option CHC.instance -> dict -> value -> result BGI.
Variable Header : dict -> value -> Z -> result HDR.


(** [src/code]: what comes before the bias level raises [ValueError] only. *)
Lemma A_init_bias_level_fails (sf kf g : value) (d : dict) (ch b dir : value) :
  A.check_bias_level b = Raise ValueError ->
  A.__init__ repr_float load_workbook Point_Spread_Function
    Background_Image Header sf kf g d ch b dir = Raise ValueError.
Proof.
  intros Hb. unfold A.__init__.
  destruct (A_check_star_flux_cases sf) as [-> | ->]; cbn [bind]; auto.
  destruct (A_check_sky_flux_cases kf) as [-> | ->]; cbn [bind]; auto.
  destruct (A_check_gaussian_std_cases g) as [-> | ->]; cbn [bind]; auto.
  destruct (A_check_channel_cases ch) as [-> | ->]; cbn [bind]; auto.
  now rewrite Hb.
Qed.


(** [src/code]: what follows a check is the same whatever passed it. *)
Ltac same_outcome :=
  repeat match goal with
         | |- context [bind ?m _] => destruct m; cbn [bind]
         | |- context [if ?c then _ else _] => destruct c
         | |- context [match ?o with Some _ => _ | None => _ end] =>
             destruct o
         end;
  reflexivity.

(** [src/code]: an accepted bias level replaces the default one and
    nothing else changes, neither in the object nor in the exception that
    the later lines raise. *)
Lemma A_init_bias_level_stored (sf kf g : value) (d : dict)
    (ch b b' dir : value) :
  A.check_bias_level b = Ok b' ->
  A.__init__ repr_float load_workbook Point_Spread_Function
    Background_Image Header sf kf g d ch b dir
  = let* o := A.__init__ repr_float load_workbook Point_Spread_Function
                Background_Image Header sf kf g d ch (VInt 500) dir in
    Ok (A.with_bias_level o b').
Proof.
  intros Hb. unfold A.__init__. rewrite Hb.
  change (A.check_bias_level (VInt 500)) with (Ok (VInt 500)).
  same_outcome.
Qed.


(** [src/AIS]: the operation mode is verified before the bias level and
    the directory, and can raise other exceptions. *)
Lemma B_init_bias_level_fails (sf kf g : value) (d : dict) (ch b dir : value) :
  B.check_bias_level b = Raise ValueError ->
  succeeds (B.__init__ sf kf g d ch b dir) = false
  /\ (B._verify_ccd_operation_mode d = Ok tt ->
      B.__init__ sf kf g d ch b dir = Raise ValueError).
Proof.
  intros Hb. unfold B.__init__.
  destruct (B_check_star_flux_cases sf) as [-> | ->]; cbn [bind]; auto.
  destruct (B_check_sky_flux_cases kf) as [-> | ->]; cbn [bind]; auto.
  destruct (B_check_gaussian_stddev_cases g) as [-> | ->]; cbn [bind]; auto.
  destruct (B._verify_ccd_operation_mode d) as [[] | e]; cbn [bind];
    [ | split; [reflexivity | discriminate]].
  destruct (B_check_channel_cases ch) as [-> | ->]; cbn [bind]; auto.
  rewrite Hb. auto.
Qed.


Lemma B_init_bias_level_stored (sf kf g : value) (d : dict)
    (ch b b' dir : value) (o : B.simulator) :
  B.check_bias_level b = Ok b' ->
  B.__init__ sf kf g d ch (VInt 500) dir = Ok o ->
  B.__init__ sf kf g d ch b dir = Ok (B.with_bias_level o b').
Proof.
  intros Hb. unfold B.__init__. rewrite Hb.
  change (B.check_bias_level (VInt 500)) with (Ok (VInt 500)).
  destruct (B.check_star_flux sf); cbn [bind]; [ | discriminate].
  destruct (B.check_sky_flux kf); cbn [bind]; [ | discriminate].
  destruct (B.check_gaussian_stddev g); cbn [bind]; [ | discriminate].
  destruct (B._verify_ccd_operation_mode d); cbn [bind]; [ | discriminate].
  destruct (B.check_channel ch); cbn [bind]; [ | discriminate].
  destruct (B.check_image_dir dir); cbn [bind]; [ | discriminate].
  intros H. injection H as <-. reflexivity.
Qed.


End Constructors.

(** ** The bias level *)

Section Bias_level.
Import Py.

(** C8 (as amended).  The constructor of [src/code/AIS/AIS.py]
    ([Artificial_Image_Simulator]) validates [bias_level] as a positive
    integer: a value whose type is not [int] and an integer [n <= 0] (zero
    included) fail the check of lines 153-159 and make the constructor raise
    [ValueError]; an integer [n > 0] passes the check, is what
    [self.bias_level] is set to, and changes nothing else in what the
    constructor does with the default 500, whatever that is.  The
    constructor of [src/AIS/AIS.py] ([Artificial_Images_Simulator])
    validates it as a non-negative integer: a value whose type is not [int]
    and an integer [n < 0] are rejected (with [ValueError] once the
    operation mode has passed its own validation, which comes first there),
    and an integer [n >= 0], zero included, is accepted wherever 500 is, and
    stored unchanged. *)
Theorem bias_level_validation :
  (forall repr_float load_workbook (PSF BGI HDR : Type)
          (Point_Spread_Function :
             option CHC.instance -> dict -> value -> value -> result PSF)
          (Background_Image :
             option CHC.instance -> dict -> value -> result BGI)
          (Header : dict -> value -> Z -> result HDR)
          sf kf g d ch dir,
      (forall b, type_of b <> ty_int ->
                 A.check_bias_level b = Raise ValueError
                 /\ A.__init__ repr_float load_workbook Point_Spread_Function
                      Background_Image Header sf kf g d ch b dir
                    = Raise ValueError)
      /\ (forall n, n <= 0 ->
                    A.check_bias_level (VInt n) = Raise ValueError
                    /\ A.__init__ repr_float load_workbook
                         Point_Spread_Function Background_Image Header
                         sf kf g d ch (VInt n) dir = Raise ValueError)
      /\ (forall n, 0 < n ->
            A.check_bias_level (VInt n) = Ok (VInt n)
            /\ A.__init__ repr_float load_workbook Point_Spread_Function
                 Background_Image Header sf kf g d ch (VInt n) dir
               = let* o := A.__init__ repr_float load_workbook
                             Point_Spread_Function Background_Image Header
                             sf kf g d ch (VInt 500) dir in
                 Ok (A.with_bias_level o (VInt n))))
  /\
  (forall sf kf g d ch dir,
      (forall b, type_of b <> ty_int ->
         succeeds (B.__init__ sf kf g d ch b dir) = false
         /\ (B._verify_ccd_operation_mode d = Ok tt ->
             B.__init__ sf kf g d ch b dir = Raise ValueError))
      /\ (forall n, n < 0 ->
            succeeds (B.__init__ sf kf g d ch (VInt n) dir) = false
            /\ (B._verify_ccd_operation_mode d = Ok tt ->
                B.__init__ sf kf g d ch (VInt n) dir = Raise ValueError))
      /\ (forall n o, 0 <= n ->
            B.__init__ sf kf g d ch (VInt 500) dir = Ok o ->
            B.__init__ sf kf g d ch (VInt n) dir
            = Ok (B.with_bias_level o (VInt n)))).
Proof.
  split.
  - intros rf lw PSF BGI HDR psf bgi hdr sf kf g d ch dir. repeat split.
    + now apply A_check_bias_level_not_int.
    + apply A_init_bias_level_fails. now apply A_check_bias_level_not_int.
    + rewrite A_check_bias_level_int.
      destruct (Z.leb_spec n 0); [reflexivity | lia].
    + apply A_init_bias_level_fails. rewrite A_check_bias_level_int.
      destruct (Z.leb_spec n 0); [reflexivity | lia].
    + rewrite A_check_bias_level_int.
      destruct (Z.leb_spec n 0); [lia | reflexivity].
    + apply A_init_bias_level_stored. rewrite A_check_bias_level_int.
      destruct (Z.leb_spec n 0); [lia | reflexivity].
  - intros sf kf g d ch dir. split; [ | split].
    + intros b Hb. apply B_init_bias_level_fails.
      now apply B_check_bias_level_not_int.
    + intros n Hn. apply B_init_bias_level_fails.
      rewrite B_check_bias_level_int.
      destruct (Z.leb_spec 0 n); [lia | reflexivity].
    + intros n o Hn. apply B_init_bias_level_stored.
      rewrite B_check_bias_level_int.
      destruct (Z.leb_spec 0 n); [reflexivity | lia].
Qed.

Lemma bias_level_validation_witness :
  A.check_bias_level (VInt 7) = Ok (VInt 7)
  /\ (exists o,
         B.__init__ (VInt 100) (VInt 50) (VInt 3) Inputs.conventional_bin
           (VInt 1) (VInt 0) (VStr "") = Ok o
         /\ B.bias_level o = VInt 0)
  /\ A.__init__ Inputs.repr_float Inputs.load_workbook
       Inputs.Point_Spread_Function Inputs.Background_Image Inputs.Header
       (VInt 100) (VInt 50) (VInt 3) Inputs.conventional (VInt 1)
       (VFloat 0.5) (VStr "") = Raise ValueError.
Proof.
  split; [ | split].
  - apply (proj2 (proj2 (proj1 bias_level_validation
                           Inputs.repr_float Inputs.load_workbook
                           unit unit unit Inputs.Point_Spread_Function
                           Inputs.Background_Image Inputs.Header
                           (VInt 100) (VInt 50) (VInt 3)
                           Inputs.conventional (VInt 1) (VStr "")))
             7 eq_refl).
  - eexists. split.
    + apply (proj2 (proj2 (proj2 bias_level_validation
                             (VInt 100) (VInt 50) (VInt 3)
                             Inputs.conventional_bin (VInt 1) (VStr "")))
               0 _ (Z.le_refl 0) eq_refl).
    + reflexivity.
  - apply (proj1 (proj1 bias_level_validation
                    Inputs.repr_float Inputs.load_workbook
                    unit unit unit Inputs.Point_Spread_Function
                    Inputs.Background_Image Inputs.Header
                    (VInt 100) (VInt 50) (VInt 3)
                    Inputs.conventional (VInt 1) (VStr ""))
             (VFloat 0.5)).
    discriminate.
Defined.

(** C8, as stated, fails on [src/code/AIS/AIS.py]: [bias_level = 0] fails
    the check of lines 153-159, and the constructor raises that
    [ValueError] with arguments that, with the default bias level, pass
    every validation (the exception is then the later one of the channel
    call, lines 175-182). *)
Lemma bias_level_zero_rejected :
  A.check_bias_level (VInt 0) = Raise ValueError
  /\ A.__init__ Inputs.repr_float Inputs.load_workbook
       Inputs.Point_Spread_Function Inputs.Background_Image Inputs.Header
       (VInt 100) (VInt 50) (VInt 3) Inputs.conventional (VInt 1)
       (VInt 0) (VStr "") = Raise ValueError
  /\ A.__init__ Inputs.repr_float Inputs.load_workbook
       Inputs.Point_Spread_Function Inputs.Background_Image Inputs.Header
       (VInt 100) (VInt 50) (VInt 3) Inputs.conventional (VInt 1)
       (VInt 500) (VStr "") = Raise TypeError.
Proof. repeat split; reflexivity. Qed.

End Bias_level.

(** ** The image directory *)

Section Image_dir.
Import Py.



End Image_dir.

(** ** Validation of the operation mode *)

Section Operation_mode.
Import Py.

Lemma str_in_true (k : string) (l : list string) :
  In k l -> str_in k l = true.
Proof.
  intros H. unfold str_in. apply existsb_exists.
  exists k. split; [exact H | apply String.eqb_refl].
Qed.

Lemma list_ne_true (l1 l2 : list string) :
  l1 <> l2 -> B.list_ne l1 l2 = true.
Proof.
  intros H. unfold B.list_ne.
  destruct (list_eq_dec string_dec l1 l2); [contradiction | reflexivity].
Qed.

(** [src/AIS]: the seven keys in another order do not pass. *)
Lemma B_verify_other_order (d : dict) :
  Permutation (keys d) B.dic_keywords_list ->
  keys d <> B.dic_keywords_list ->
  B._verify_ccd_operation_mode d = Raise ValueError.
Proof.
  intros Hp Hne. unfold B._verify_ccd_operation_mode.
  rewrite for_each_Ok.
  - cbn [bind]. now rewrite (list_ne_true _ _ Hne).
  - intros k Hk. rewrite str_in_true; [reflexivity | ].
    now apply (Permutation_in k Hp).
Qed.

(** C9.  In [src/AIS/AIS.py] ([Artificial_Images_Simulator]) a dictionary
    that holds exactly the seven keys of the keyword list, in an insertion
    order other than [em_mode, em_gain, preamp, hss, bin, t_exp, ccd_temp],
    makes the constructor raise [ValueError], whatever the values and the
    other arguments. *)
Theorem key_order_sensitive (sf kf g : value) (d : dict) (ch b dir : value) :
  Permutation (keys d) B.dic_keywords_list ->
  keys d <> B.dic_keywords_list ->
  B.__init__ sf kf g d ch b dir = Raise ValueError.
Proof.
  intros Hp Hne. unfold B.__init__.
  destruct (B_check_star_flux_cases sf) as [-> | ->]; cbn [bind]; auto.
  destruct (B_check_sky_flux_cases kf) as [-> | ->]; cbn [bind]; auto.
  destruct (B_check_gaussian_stddev_cases g) as [-> | ->]; cbn [bind]; auto.
  now rewrite (B_verify_other_order d Hp Hne).
Qed.

Lemma key_order_sensitive_witness :
  B.__init__ (VInt 100) (VInt 50) (VInt 3) Inputs.conventional_bin_swapped
    (VInt 1) (VInt 500) (VStr "") = Raise ValueError
  /\ succeeds (B.__init__ (VInt 100) (VInt 50) (VInt 3)
                 Inputs.conventional_bin (VInt 1) (VInt 500) (VStr ""))
     = true.
Proof.
  split.
  - apply (key_order_sensitive (VInt 100) (VInt 50) (VInt 3)
             Inputs.conventional_bin_swapped (VInt 1) (VInt 500) (VStr "")).
    + apply perm_swap.
    + discriminate.
  - reflexivity.
Defined.

(** C7 on [src/code/AIS/AIS.py]: a dictionary without one of the seven
    keys makes [_verify_ccd_operation_mode] raise [KeyError], which is not
    a [ValueError]: the subscripts of its first lines come before the check
    of the keys. *)
Theorem missing_key_raises_KeyError (d : dict) (k : string) :
  In k keywords -> lookup d k = None ->
  A._verify_ccd_operation_mode d = Raise KeyError.
Proof.
  intros Hin Hk. unfold A._verify_ccd_operation_mode, getitem.
  unfold keywords in Hin. simpl in Hin.
  repeat (destruct Hin as [<- | Hin]; [
    repeat (first [ rewrite Hk; reflexivity
                  | match goal with
                    | |- context [lookup d ?key] =>
                        destruct (lookup d key); cbn [bind];
                        [ | reflexivity]
                    end ]) | ]).
  contradiction.
Qed.

Lemma missing_key_raises_KeyError_witness :
  A._verify_ccd_operation_mode Inputs.no_temperature = Raise KeyError
  /\ A.__init__ Inputs.repr_float Inputs.load_workbook
       Inputs.Point_Spread_Function Inputs.Background_Image Inputs.Header
       (VInt 100) (VInt 50) (VInt 3) Inputs.no_temperature (VInt 1)
       (VInt 500) (VStr "") = Raise KeyError.
Proof.
  split.
  - apply (missing_key_raises_KeyError Inputs.no_temperature "ccd_temp").
    + simpl. tauto.
    + reflexivity.
  - reflexivity.
Defined.

Lemma py_in_classes (v : value) :
  py_in v [VType ty_float; VType ty_int] = true -> exists t, v = VType t.
Proof.
  destruct v; unfold py_in, py_eq; simpl; try discriminate. eauto.
Qed.

Lemma A_verify_rejects_em (d : dict) (m : value) :
  getitem d "em_mode" = Ok m -> py_eq m (VInt 0) = false ->
  succeeds (A._verify_ccd_operation_mode d) = false.
Proof.
  intros Hm H0. unfold A._verify_ccd_operation_mode. rewrite Hm.
  cbn [bind].
  destruct (getitem d "em_gain") as [g | ]; cbn [bind]; [ | reflexivity].
  destruct (getitem d "hss"); cbn [bind]; [ | reflexivity].
  destruct (getitem d "preamp"); cbn [bind]; [ | reflexivity].
  destruct (getitem d "binn"); cbn [bind]; [ | reflexivity].
  destruct (getitem d "t_exp"); cbn [bind]; [ | reflexivity].
  destruct (getitem d "ccd_temp"); cbn [bind]; [ | reflexivity].
  destruct (for_each _ _); cbn [bind]; [ | reflexivity].
  destruct (raise_if (py_ne _ _) _); cbn [bind]; [ | reflexivity].
  destruct (raise_if (negb (py_in m _)) _); cbn [bind]; [ | reflexivity].
  rewrite H0.
  destruct (py_in g [VType ty_float; VType ty_int]) eqn:Hg; cbn [negb];
    [ | reflexivity].
  apply py_in_classes in Hg. destruct Hg as [t ->]. reflexivity.
Qed.

(** C2 on [src/code/AIS/AIS.py]: a mode whose [em_mode] is not equal to 0
    is never accepted, whatever its [em_gain]: the value itself, not its
    type, is looked up in [[float, int]], so a number raises [ValueError]
    and a class raises [TypeError] at the comparison with 2.  The mode
    with [em_mode = 1] and [em_gain = 2] is rejected with [ValueError],
    while [src/AIS/AIS.py] accepts it. *)
Theorem em_mode_1_never_accepted (d : dict) (m : value) :
  getitem d "em_mode" = Ok m -> py_eq m (VInt 0) = false ->
  succeeds (A._verify_ccd_operation_mode d) = false
  /\ A._verify_ccd_operation_mode Inputs.electron_multiplying
     = Raise ValueError
  /\ B._verify_ccd_operation_mode (Inputs.electron_multiplying_bin (VInt 2))
     = Ok tt.
Proof.
  intros Hm H0. split.
  - exact (A_verify_rejects_em d m Hm H0).
  - split; reflexivity.
Qed.

Lemma em_mode_1_never_accepted_witness :
  succeeds (A._verify_ccd_operation_mode Inputs.electron_multiplying) = false.
Proof.
  apply (em_mode_1_never_accepted Inputs.electron_multiplying (VInt 1));
    reflexivity.
Defined.

(** [src/AIS]: in electron-multiplying mode an integer gain is accepted
    exactly from 2 to 300, and the gain 1.5 is rejected. *)
Lemma B_verify_em_gain (g : value) :
  B._verify_ccd_operation_mode (Inputs.electron_multiplying_bin g)
  = let* out := py_or (py_lt g (VInt 2)) (py_gt g (VInt 300)) in
    raise_if out ValueError.
Proof.
  unfold B._verify_ccd_operation_mode, py_or.
  cbn -[py_lt py_gt]. destruct (py_lt g (VInt 2)) as [[ | ] | ]; try reflexivity.
  cbn -[py_gt]. destruct (py_gt g (VInt 300)) as [[ | ] | ]; reflexivity.
Qed.

Lemma B_verify_em_gain_int (n : Z) :
  succeeds (B._verify_ccd_operation_mode
              (Inputs.electron_multiplying_bin (VInt n)))
  = (2 <=? n) && (n <=? 300).
Proof.
  rewrite B_verify_em_gain. unfold py_or, py_gt, py_lt. cbn [as_num].
  cbn [num_compare bind].
  destruct (Z.compare_spec n 2), (Z.compare_spec 300 n),
    (Z.leb_spec 2 n), (Z.leb_spec n 300); try lia; reflexivity.
Qed.

Lemma B_verify_em_gain_1_5 :
  B._verify_ccd_operation_mode
    (Inputs.electron_multiplying_bin (VFloat 1.5)) = Raise ValueError.
Proof. reflexivity. Qed.

(** [src/code]: the conventional mode passes; one more key is a
    [ValueError]. *)
Lemma A_verify_conventional :
  A._verify_ccd_operation_mode Inputs.conventional = Ok tt.
Proof. reflexivity. Qed.

Lemma A_verify_extra_key (d : dict) (k : string) :
  (forall k', In k' keywords -> exists v, getitem d k' = Ok v) ->
  In k (keys d) -> ~ In k keywords ->
  A._verify_ccd_operation_mode d = Raise ValueError.
Proof.
  intros Hall Hk Hn. unfold A._verify_ccd_operation_mode.
  destruct (Hall "em_mode"%string) as [? ->]; [simpl; tauto | ].
  destruct (Hall "em_gain"%string) as [? ->]; [simpl; tauto | ].
  destruct (Hall "hss"%string) as [? ->]; [simpl; tauto | ].
  destruct (Hall "preamp"%string) as [? ->]; [simpl; tauto | ].
  destruct (Hall "binn"%string) as [? ->]; [simpl; tauto | ].
  destruct (Hall "t_exp"%string) as [? ->]; [simpl; tauto | ].
  destruct (Hall "ccd_temp"%string) as [? ->]; [simpl; tauto | ].
  cbn [bind]. rewrite (for_each_Raise _ _ ValueError k); auto.
  - intros y. apply raise_if_cases.
  - destruct (str_in k _) eqn:E; [ | reflexivity].
    unfold str_in in E. apply existsb_exists in E.
    destruct E as (k' & Hin & He). apply String.eqb_eq in He. subst k'.
    destruct Hn. simpl in Hin. simpl. tauto.
Qed.

Lemma A_verify_one_more_key :
  A._verify_ccd_operation_mode Inputs.one_more_key = Raise ValueError.
Proof. reflexivity. Qed.

End Operation_mode.

(** ** What an accepted mode holds *)

Section Accepted_modes.
Import Py.

(** [src/code]: an accepted mode has the seven values, with [em_mode == 0]
    and [em_gain == 1], and [preamp], [hss] and [binn] in their lists. *)
Lemma A_verify_Ok (d : dict) (u : unit) :
  A._verify_ccd_operation_mode d = Ok u ->
  exists m g h p b t T,
    getitem d "em_mode" = Ok m /\ getitem d "em_gain" = Ok g
    /\ getitem d "hss" = Ok h /\ getitem d "preamp" = Ok p
    /\ getitem d "binn" = Ok b /\ getitem d "t_exp" = Ok t
    /\ getitem d "ccd_temp" = Ok T
    /\ py_eq m (VInt 0) = true /\ py_eq g (VInt 1) = true
    /\ py_in p [VInt 1; VInt 2] = true
    /\ py_in h [VFloat f0_1; VInt 1; VInt 10; VInt 20; VInt 30] = true
    /\ py_in b [VInt 1; VInt 2] = true.
Proof.
  intros H.
  destruct (getitem d "em_mode") as [m | ] eqn:Em.
  2:{ unfold A._verify_ccd_operation_mode in H. now rewrite Em in H. }
  destruct (py_eq m (VInt 0)) eqn:E0.
  2:{ pose proof (A_verify_rejects_em d m Em E0) as Hr.
      now rewrite H in Hr. }
  unfold A._verify_ccd_operation_mode in H. rewrite Em in H.
  cbn [bind] in H.
  destruct (getitem d "em_gain") as [g | ]; cbn [bind] in H;
    [ | discriminate].
  destruct (getitem d "hss") as [h | ]; cbn [bind] in H; [ | discriminate].
  destruct (getitem d "preamp") as [p | ]; cbn [bind] in H;
    [ | discriminate].
  destruct (getitem d "binn") as [b | ]; cbn [bind] in H; [ | discriminate].
  destruct (getitem d "t_exp") as [t | ]; cbn [bind] in H; [ | discriminate].
  destruct (getitem d "ccd_temp") as [T | ]; cbn [bind] in H;
    [ | discriminate].
  destruct (for_each _ _); cbn [bind] in H; [ | discriminate].
  destruct (raise_if (py_ne _ _) _); cbn [bind] in H; [ | discriminate].
  destruct (raise_if (negb (py_in m _)) _); cbn [bind] in H;
    [ | discriminate].
  rewrite E0 in H. unfold py_ne in H.
  destruct (py_eq g (VInt 1)) eqn:Eg; cbn [negb raise_if bind] in H;
    [ | discriminate].
  destruct (py_in p [VInt 1; VInt 2]) eqn:Ep; cbn [negb raise_if bind] in H;
    [ | discriminate].
  destruct (py_in h _) eqn:Eh; cbn [negb raise_if bind] in H;
    [ | discriminate].
  destruct (py_in b [VInt 1; VInt 2]) eqn:Eb; cbn [negb raise_if bind] in H;
    [ | discriminate].
  exists m, g, h, p, b, t, T. repeat split; auto.
Qed.

Lemma getitem_cases (d : dict) (k : string) :
  (exists v, getitem d k = Ok v) \/ getitem d k = Raise KeyError.
Proof. unfold getitem. destruct (lookup d k); eauto. Qed.

(** [src/code]: with [em_mode == 0], a gain that differs from 1 is
    rejected (a [KeyError] if a key is missing, a [ValueError] if not). *)
Lemma A_verify_conventional_gain (d : dict) (m g : value) :
  getitem d "em_mode" = Ok m -> getitem d "em_gain" = Ok g ->
  py_eq m (VInt 0) = true -> py_eq g (VInt 1) = false ->
  A._verify_ccd_operation_mode d = Raise KeyError
  \/ A._verify_ccd_operation_mode d = Raise ValueError.
Proof.
  intros Em Eg E0 E1. unfold A._verify_ccd_operation_mode.
  rewrite Em, Eg. cbn [bind].
  destruct (getitem_cases d "hss") as [[? ->] | ->]; cbn [bind]; auto.
  destruct (getitem_cases d "preamp") as [[? ->] | ->]; cbn [bind]; auto.
  destruct (getitem_cases d "binn") as [[? ->] | ->]; cbn [bind]; auto.
  destruct (getitem_cases d "t_exp") as [[? ->] | ->]; cbn [bind]; auto.
  destruct (getitem_cases d "ccd_temp") as [[? ->] | ->]; cbn [bind]; auto.
  destruct (for_each_cases (keys d)
              (fun key =>
                 raise_if (negb (str_in key
                   ["binn"; "ccd_temp"; "em_gain"; "em_mode"; "hss";
                    "preamp"; "t_exp"]%string)) ValueError) ValueError)
    as [-> | ->]; cbn [bind]; auto.
  { intros key. apply raise_if_cases. }
  unfold list_sort. change (raise_if (py_ne VNone VNone) ValueError)
    with (Ok tt). cbn [bind].
  destruct (raise_if_cases (negb (py_in m [VInt 0; VInt 1])) ValueError)
    as [-> | ->]; cbn [bind]; auto.
  rewrite E0. unfold py_ne. rewrite E1. cbn. auto.
Qed.

(** One of [0] and [1]: equal to [1] exactly when not equal to [0]. *)
Lemma em_mode_0_or_1 (m : value) :
  py_in m [VInt 0; VInt 1] = true ->
  py_eq m (VInt 1) = negb (py_eq m (VInt 0)).
Proof.
  unfold py_in. cbn [existsb]. rewrite orb_false_r. intros H.
  destruct (py_eq m (VInt 0)) eqn:E0; cbn [negb].
  - apply (py_eq_int_other m 0 1); [lia | assumption].
  - exact H.
Qed.

End Accepted_modes.

(** ** The row of the calibration table *)

Section Gain_index.
Import Py.
Import Artificial_Image_Simulator.

Lemma offset_add (b : bool) (i : Z) :
  (if b then i + 2 else i) = i + (if b then 2 else 0).
Proof. destruct b; lia. Qed.

(** C1.  For an operation mode [d] that holds [em_mode], [hss] and
    [preamp] (every mode that validation accepts does), the row of the gain
    spreadsheet is a base fixed by [hss] and [em_mode] (23 for 0.1; 19 for
    1, or 15 in electron-multiplying mode; 11 for 10; 7 for 20; 3 for 30)
    plus 2 exactly when [preamp == 2]; for any other [hss] the computation
    raises [ValueError] and gives no row.  [_configure_gain] reads column 5
    of that row, and a mode that validation accepts always has a row. *)
Theorem tab_index_by_hss (d : dict) (em_mode hss preamp : value) :
  getitem d "em_mode" = Ok em_mode ->
  getitem d "hss" = Ok hss ->
  getitem d "preamp" = Ok preamp ->
  let off := if py_eq preamp (VInt 2) then 2 else 0 in
  (py_eq hss (VFloat f0_1) = true -> tab_index d = Ok (23 + off)) /\
  (py_eq hss (VInt 1) = true ->
   tab_index d = Ok ((if py_eq em_mode (VInt 1) then 15 else 19) + off)) /\
  (py_eq hss (VInt 10) = true -> tab_index d = Ok (11 + off)) /\
  (py_eq hss (VInt 20) = true -> tab_index d = Ok (7 + off)) /\
  (py_eq hss (VInt 30) = true -> tab_index d = Ok (3 + off)) /\
  (py_in hss [VFloat f0_1; VInt 1; VInt 10; VInt 20; VInt 30] = false ->
   tab_index d = Raise ValueError) /\
  (forall repr_float load_workbook channel,
     _configure_gain repr_float load_workbook channel d =
     let* i := tab_index d in
     let* sheet := load_workbook (spreadsheet_path repr_float channel) in
     Ok (sheet i 5)) /\
  (forall u, _verify_ccd_operation_mode d = Ok u ->
             exists i, tab_index d = Ok i).
Proof.
  intros Hm Hh Hp off. unfold tab_index. rewrite Hm, Hh, Hp.
  cbn [bind]. subst off.
  repeat split.
  - intros H. rewrite H. cbn [bind]. now rewrite offset_add.
  - intros H.
    destruct (py_eq hss (VFloat f0_1)) eqn:H0.
    + apply py_eq_f0_1_not_int with (k := 1) in H0. congruence.
    + rewrite H. cbn [bind]. now rewrite offset_add.
  - intros H.
    destruct (py_eq hss (VFloat f0_1)) eqn:H0.
    + apply py_eq_f0_1_not_int with (k := 10) in H0. congruence.
    + rewrite (py_eq_int_other hss 10 1), H by (lia || assumption).
      cbn [bind]. now rewrite offset_add.
  - intros H.
    destruct (py_eq hss (VFloat f0_1)) eqn:H0.
    + apply py_eq_f0_1_not_int with (k := 20) in H0. congruence.
    + rewrite (py_eq_int_other hss 20 1), (py_eq_int_other hss 20 10), H
        by (lia || assumption).
      cbn [bind]. now rewrite offset_add.
  - intros H.
    destruct (py_eq hss (VFloat f0_1)) eqn:H0.
    + apply py_eq_f0_1_not_int with (k := 30) in H0. congruence.
    + rewrite (py_eq_int_other hss 30 1), (py_eq_int_other hss 30 10),
        (py_eq_int_other hss 30 20), H by (lia || assumption).
      cbn [bind]. now rewrite offset_add.
  - unfold py_in. cbn [existsb]. intros H.
    repeat (apply orb_false_elim in H; destruct H as [?H H]).
    now repeat match goal with E : py_eq hss _ = false |- _ =>
                 rewrite E; clear E end.
  - intros rf lw ch. unfold _configure_gain, tab_index.
    now rewrite Hm, Hh, Hp.
  - intros u Hu. apply A_verify_Ok in Hu.
    destruct Hu as (m' & g' & h' & p' & b' & t' & T' & _ & _ & Hh' & _ & _
                    & _ & _ & _ & _ & _ & Hin & _).
    rewrite Hh in Hh'. injection Hh' as <-.
    unfold py_in in Hin. cbn [existsb] in Hin.
    destruct (py_eq hss (VFloat f0_1)); [eexists; reflexivity | ].
    destruct (py_eq hss (VInt 1)); [eexists; reflexivity | ].
    destruct (py_eq hss (VInt 10)); [eexists; reflexivity | ].
    destruct (py_eq hss (VInt 20)); [eexists; reflexivity | ].
    destruct (py_eq hss (VInt 30)); [eexists; reflexivity | ].
    discriminate.
Qed.

Lemma tab_index_by_hss_witness :
  tab_index Inputs.conventional = Ok 19
  /\ tab_index Inputs.electron_multiplying = Ok 15.
Proof.
  split.
  - exact (proj1 (proj2 (tab_index_by_hss Inputs.conventional
                           (VInt 0) (VInt 1) (VInt 1)
                           eq_refl eq_refl eq_refl)) eq_refl).
  - exact (proj1 (proj2 (tab_index_by_hss Inputs.electron_multiplying
                           (VInt 1) (VInt 1) (VInt 1)
                           eq_refl eq_refl eq_refl)) eq_refl).
Defined.

End Gain_index.

(** ** The image name *)

Section Image_name.
Import Py.

Lemma append_assoc (s1 s2 s3 : string) :
  ((s1 ++ s2) ++ s3 = s1 ++ (s2 ++ s3))%string.
Proof. induction s1 as [ | c s1 IH]; simpl; [reflexivity | now rewrite IH]. Qed.

(** C5.  With the six values of the mode at hand and [em_mode] one of 0
    and 1 (every accepted mode is such), the image name is [CONV] for
    [em_mode == 0] and [EM] otherwise, followed by [_HSS], [_PA], [_B],
    [_TEXP] and [_G], each with the [str] of its value.  This is what
    [_configure_image_name] returns in both revisions (the binning is under
    [binn] in [src/code/AIS/AIS.py] and under [bin] in [src/AIS/AIS.py]) and
    the name of any object that the constructor of [src/code/AIS/AIS.py]
    gives; for integer values 1 of [hss], [preamp], the binning, [t_exp]
    and [em_gain] in conventional mode it is [CONV_HSS1_PA1_B1_TEXP1_G1]. *)
Theorem image_name_format (repr_float : float -> string) (d : dict)
    (m g h p b t : value) :
  getitem d "em_mode" = Ok m -> getitem d "em_gain" = Ok g ->
  getitem d "hss" = Ok h -> getitem d "preamp" = Ok p ->
  getitem d "t_exp" = Ok t ->
  let name :=
    ((if py_eq m (VInt 0) then "CONV" else "EM")
       ++ "_HSS" ++ str repr_float h ++ "_PA" ++ str repr_float p
       ++ "_B" ++ str repr_float b ++ "_TEXP" ++ str repr_float t
       ++ "_G" ++ str repr_float g)%string in
  (forall sf, getitem d "binn" = Ok b -> py_in m [VInt 0; VInt 1] = true ->
              A._configure_image_name repr_float sf d false = Ok name)
  /\ (forall load_workbook (PSF BGI HDR : Type)
             (Point_Spread_Function :
                option CHC.instance -> dict -> value -> value -> result PSF)
             (Background_Image :
                option CHC.instance -> dict -> value -> result BGI)
             (Header : dict -> value -> Z -> result HDR)
             sf kf gs ch bl dir o,
         getitem d "binn" = Ok b ->
         A.__init__ repr_float load_workbook Point_Spread_Function
           Background_Image Header sf kf gs d ch bl dir = Ok o ->
         A.image_name o = name)
  /\ (forall self, B.ccd_operation_mode self = d ->
         getitem d "bin" = Ok b -> py_in m [VInt 0; VInt 1] = true ->
         B._configure_image_name repr_float self false = Ok name)
  /\ (py_eq m (VInt 0) = true -> g = VInt 1 -> h = VInt 1 -> p = VInt 1 ->
      b = VInt 1 -> t = VInt 1 ->
      name = "CONV_HSS1_PA1_B1_TEXP1_G1"%string).
Proof.
  intros Em Eg Eh Ep Et name.
  assert (HA : forall sf, getitem d "binn" = Ok b ->
                 py_in m [VInt 0; VInt 1] = true ->
                 A._configure_image_name repr_float sf d false = Ok name).
  { intros sf Eb Hm. unfold A._configure_image_name.
    rewrite Eg, Em, Eh, Ep, Eb, Et. cbn [bind].
    rewrite (em_mode_0_or_1 m Hm). subst name.
    destruct (py_eq m (VInt 0)); cbn [negb];
      repeat rewrite append_assoc; reflexivity. }
  repeat split.
  - exact HA.
  - intros lw PSF BGI HDR psf bgi hdr sf kf gs ch bl dir o Eb H.
    unfold A.__init__ in H.
    destruct (A.check_star_flux sf) as [sf' | ]; cbn [bind] in H;
      [ | discriminate].
    destruct (A.check_sky_flux kf); cbn [bind] in H; [ | discriminate].
    destruct (A.check_gaussian_std gs); cbn [bind] in H; [ | discriminate].
    destruct (A.check_channel ch); cbn [bind] in H; [ | discriminate].
    destruct (A.check_bias_level bl); cbn [bind] in H; [ | discriminate].
    destruct (A.check_image_dir dir); cbn [bind] in H; [ | discriminate].
    destruct (A._verify_ccd_operation_mode d) as [u | ] eqn:Hv;
      cbn [bind] in H; [ | discriminate].
    destruct (A._configure_gain _ _ _ _); cbn [bind] in H; [ | discriminate].
    apply A_verify_Ok in Hv.
    destruct Hv as (m' & g' & h' & p' & b' & t' & T' & Em' & _ & _ & _ & _
                    & _ & _ & E0 & _).
    rewrite Em in Em'. injection Em' as <-.
    rewrite (HA sf' Eb) in H.
    + cbn [bind] in H.
      destruct (if py_eq _ (VInt 1) then _ else _); cbn [bind] in H;
        [ | discriminate].
      destruct (psf _ _ _ _); cbn [bind] in H; [ | discriminate].
      destruct (bgi _ _ _); cbn [bind] in H; [ | discriminate].
      destruct (match _ with Some _ => _ | None => _ end); cbn [bind] in H;
        [ | discriminate].
      destruct (hdr _ _ _); cbn [bind] in H; [ | discriminate].
      injection H as <-. reflexivity.
    + unfold py_in. cbn [existsb]. now rewrite E0.
  - intros self Hd Eb Hm. unfold B._configure_image_name.
    rewrite Hd, Eg, Em, Eh, Ep, Eb, Et. cbn [bind].
    rewrite (em_mode_0_or_1 m Hm). subst name.
    destruct (py_eq m (VInt 0)); cbn [negb];
      repeat rewrite append_assoc; reflexivity.
  - intros E0 -> -> -> -> ->. subst name. now rewrite E0.
Qed.

Lemma image_name_format_witness :
  A._configure_image_name Inputs.repr_float (VInt 100) Inputs.conventional
    false = Ok "CONV_HSS1_PA1_B1_TEXP1_G1"%string.
Proof.
  pose proof (image_name_format Inputs.repr_float Inputs.conventional
                (VInt 0) (VInt 1) (VInt 1) (VInt 1) (VInt 1) (VInt 1)
                eq_refl eq_refl eq_refl eq_refl eq_refl) as H.
  exact (proj1 H (VInt 100) eq_refl eq_refl).
Defined.

End Image_name.

(** ** The composition of the image *)

Section Composition.

Variables (pixel header rng : Type).
Variable pixel_add : pixel -> pixel -> pixel.

(** Lists of one length are combined element by element, whenever the
    operation succeeds on the elements met. *)
Lemma zip_with_Ok {T : Type} (f : T -> T -> result T)
    (R : T -> T -> T -> Prop) (l1 l2 : list T) :
  List.length l1 = List.length l2 ->
  (forall x y, In x l1 -> In y l2 -> exists z, f x y = Ok z /\ R x y z) ->
  exists l, A.zip_with f l1 l2 = Ok l
            /\ List.length l = List.length l1
            /\ forall i x y, nth_error l1 i = Some x ->
                             nth_error l2 i = Some y ->
                             exists z, nth_error l i = Some z /\ R x y z.
Proof.
  revert l2. induction l1 as [ | x l1 IH]; intros [ | y l2] Hlen Hf;
    try discriminate.
  - exists []. repeat split. intros [ | i] x y; discriminate.
  - destruct (Hf x y) as (z & Hz & Rz); [now left | now left | ].
    destruct (IH l2) as (l & Hl & Hn & Hi).
    + simpl in Hlen. lia.
    + intros x' y' Hx Hy. apply Hf; now right.
    + exists (z :: l). simpl. rewrite Hz. cbn [bind]. rewrite Hl.
      cbn [bind]. repeat split.
      * simpl. now rewrite Hn.
      * intros [ | i] x' y'; simpl.
        -- intros [= <-] [= <-]. eauto.
        -- apply Hi.
Qed.

Lemma broadcast_same_length {T : Type} (f : T -> T -> result T)
    (l1 l2 : list T) :
  List.length l1 = List.length l2 -> A.broadcast f l1 l2 = A.zip_with f l1 l2.
Proof. intros H. unfold A.broadcast. now rewrite H, Nat.eqb_refl. Qed.

(** Two rows of one length. *)
Lemma row_add_Ok (r1 r2 : list pixel) :
  List.length r1 = List.length r2 ->
  exists r, A.broadcast (fun x y => Ok (pixel_add x y)) r1 r2 = Ok r
            /\ List.length r = List.length r1
            /\ forall j x y, nth_error r1 j = Some x ->
                             nth_error r2 j = Some y ->
                             nth_error r j = Some (pixel_add x y).
Proof.
  intros Hlen. rewrite broadcast_same_length by assumption.
  destruct (zip_with_Ok (fun x y => Ok (pixel_add x y))
              (fun x y z => z = pixel_add x y) r1 r2 Hlen)
    as (r & Hr & Hn & Hj).
  - intros x y _ _. eauto.
  - exists r. repeat split; auto.
    intros j x y Hx Hy. destruct (Hj j x y Hx Hy) as (z & Hz & ->). exact Hz.
Qed.

(** Two arrays of one shape. *)
Lemma ndarray_add_Ok (a b : A.ndarray pixel) (m n : nat) :
  A.has_shape pixel a m n -> A.has_shape pixel b m n ->
  exists c, A.ndarray_add pixel pixel_add a b = Ok c
            /\ A.has_shape pixel c m n
            /\ forall i j x y, A.pixel_at pixel a i j = Some x ->
                               A.pixel_at pixel b i j = Some y ->
                               A.pixel_at pixel c i j = Some (pixel_add x y).
Proof.
  intros [Ha Fa] [Hb Fb]. unfold A.ndarray_add.
  rewrite broadcast_same_length by congruence.
  destruct (zip_with_Ok
              (A.broadcast (fun x y => Ok (pixel_add x y)))
              (fun r1 r2 r =>
                 List.length r = List.length r1
                 /\ forall j x y, nth_error r1 j = Some x ->
                                  nth_error r2 j = Some y ->
                                  nth_error r j = Some (pixel_add x y))
              a b) as (c & Hc & Hn & Hi).
  - congruence.
  - intros r1 r2 H1 H2. apply row_add_Ok.
    rewrite Forall_forall in Fa, Fb. rewrite (Fa r1 H1), (Fb r2 H2).
    reflexivity.
  - exists c. split; [exact Hc | ]. split.
    + split; [congruence | ]. apply Forall_forall. intros r Hr.
      apply In_nth_error in Hr. destruct Hr as [i Hr].
      assert (Hlt : (i < List.length a)%nat).
      { rewrite <- Hn. apply nth_error_Some. congruence. }
      destruct (nth_error a i) as [r1 | ] eqn:E1;
        [ | apply nth_error_None in E1; lia].
      destruct (nth_error b i) as [r2 | ] eqn:E2;
        [ | apply nth_error_None in E2; lia].
      destruct (Hi i r1 r2 E1 E2) as (r' & Hr' & Hlen & _).
      rewrite Hr in Hr'. injection Hr' as <-.
      rewrite Hlen. rewrite Forall_forall in Fa.
      apply Fa. eapply nth_error_In. exact E1.
    + intros i j x y. unfold A.pixel_at.
      destruct (nth_error a i) as [r1 | ] eqn:E1; [ | discriminate].
      destruct (nth_error b i) as [r2 | ] eqn:E2; [ | discriminate].
      destruct (Hi i r1 r2 E1 E2) as (r & Hr & _ & Hj).
      rewrite Hr. apply Hj.
Qed.

End Composition.

(** C6.  When the background generator returns [background], the star
    generator [star_PSF] and the header builder [hdr], two frames of one
    shape, [create_artificial_image] succeeds and writes, under the image
    directory and name with the extension [.fits], that header and an array
    of the same shape whose pixel at every position is the sum of the two
    pixels at that position, and nothing else. *)
Theorem final_image_is_pixelwise_sum (pixel header rng : Type)
    (pixel_add : pixel -> pixel -> pixel)
    (create_background_image : rng -> result (A.ndarray pixel * rng))
    (create_star_PSF : result (A.ndarray pixel))
    (create_header : result header)
    (self : A.simulator) (fs : A.filesystem pixel header) (g g' : rng)
    (background star_PSF : A.ndarray pixel) (hdr : header) (m n : nat) :
  create_background_image g = Ok (background, g') ->
  create_star_PSF = Ok star_PSF ->
  create_header = Ok hdr ->
  A.has_shape pixel background m n ->
  A.has_shape pixel star_PSF m n ->
  exists data fs',
    A.create_artificial_image pixel header rng pixel_add
      create_background_image create_star_PSF create_header self fs g
    = Ok (fs', g')
    /\ fs' (A.image_dir self ++ A.image_name self ++ ".fits")%string
       = Some (data, hdr)
    /\ (forall path,
           path <> (A.image_dir self ++ A.image_name self ++ ".fits")%string
           -> fs' path = fs path)
    /\ A.has_shape pixel data m n
    /\ forall i j b p,
        A.pixel_at pixel background i j = Some b ->
        A.pixel_at pixel star_PSF i j = Some p ->
        A.pixel_at pixel data i j = Some (pixel_add b p).
Proof.
  intros Hb Hs Hh Sb Ss.
  destruct (ndarray_add_Ok pixel pixel_add background star_PSF m n Sb Ss)
    as (data & Hd & Sd & Hp).
  exists data,
    (A.writeto pixel header fs (A.fits_path self) data hdr).
  unfold A.create_artificial_image. rewrite Hb, Hs, Hh. cbn [bind fst snd].
  rewrite Hd. cbn [bind]. repeat split; auto.
  - unfold A.writeto, A.fits_path. now rewrite String.eqb_refl.
  - intros path Hne. unfold A.writeto, A.fits_path.
    destruct (String.eqb_spec path
                (A.image_dir self ++ A.image_name self ++ ".fits")%string);
      [contradiction | reflexivity].
  - apply Sd.
  - apply Sd.
Qed.

Lemma final_image_is_pixelwise_sum_witness :
  exists data fs',
    A.create_artificial_image Z unit unit Z.add
      (fun g => Ok (Inputs.background, g)) (Ok Inputs.star) (Ok tt)
      Inputs.simulator (fun _ => None) tt = Ok (fs', tt)
    /\ fs' "CONV_HSS1_PA1_B1_TEXP1_G1.fits"%string = Some (data, tt)
    /\ A.pixel_at Z data 1 1 = Some 4503.
Proof.
  assert (Sb : A.has_shape Z Inputs.background 2 2)
    by (split; [reflexivity | repeat constructor]).
  assert (Ss : A.has_shape Z Inputs.star 2 2)
    by (split; [reflexivity | repeat constructor]).
  destruct (final_image_is_pixelwise_sum Z unit unit Z.add
              (fun g => Ok (Inputs.background, g)) (Ok Inputs.star) (Ok tt)
              Inputs.simulator (fun _ => None) tt tt
              Inputs.background Inputs.star tt 2 2
              eq_refl eq_refl eq_refl Sb Ss)
    as (data & fs' & H1 & H2 & _ & _ & H5).
  exists data, fs'. split; [exact H1 | ]. split; [exact H2 | ].
  exact (H5 1%nat 1%nat 503 4000 eq_refl eq_refl).
Defined.

(** ** The dark current of the channels *)

Section Dark_current.
Local Open Scope R_scope.

(** C4.  For the class of channel 1, 2, 3 or 4 and every temperature [T],
    [calculate_dark_current] returns [a exp(b T^2 + c T)] for the
    coefficients of that channel, stores it in the instance, and the value
    is strictly positive (for every [T], so for every [T] of [-80, 20]). *)
Theorem dark_current_closed_form (c : CHC.channel_class) (T : R)
    (acquisition_mode : Py.value) (a b c' : R) :
  dark_current_coefficients (CHC._CHANNEL_ID c) = Some (a, b, c') ->
  let self := CHC.__init__ c T acquisition_mode in
  let dc := fst (CHC.calculate_dark_current self) in
  dc = a * exp (b * T ^ 2 + c' * T)
  /\ CHC.dark_current (snd (CHC.calculate_dark_current self)) = Some dc
  /\ (-80 <= T <= 20 -> 0 < dc)
  /\ 0 < dc.
Proof.
  intros H self dc.
  assert (Hpos : forall x y, 0 < x -> 0 < x * exp y).
  { intros x y Hx. apply Rmult_lt_0_compat; [exact Hx | apply exp_pos]. }
  destruct c; simpl in H; try discriminate;
    injection H as <- <- <-; subst dc self; simpl;
    (split; [reflexivity | split; [reflexivity | split; [intros _ | ]]]);
    apply Hpos; lra.
Qed.

Lemma dark_current_closed_form_witness :
  0 < fst (CHC.calculate_dark_current
             (CHC.__init__ CHC.Concrete_Channel_1 (-70) Py.VNone))
  /\ fst (CHC.calculate_dark_current
            (CHC.__init__ CHC.Concrete_Channel_4 20 Py.VNone))
     = 5.92 * exp (0.0005 * 20 ^ 2 + 0.18 * 20).
Proof.
  split.
  - apply (dark_current_closed_form CHC.Concrete_Channel_1 (-70) Py.VNone
             24.66 0.0015 0.29 eq_refl).
  - apply (dark_current_closed_form CHC.Concrete_Channel_4 20 Py.VNone
             5.92 0.0005 0.18 eq_refl).
Defined.

End Dark_current.

(* ================================================================== *)
(** * Further properties of the validation *)

Section Validation_exactly.
Import Py.

Lemma for_each_Ok_inv {T : Type} (l : list T) (body : T -> result unit)
    (u : unit) :
  for_each l body = Ok u -> forall x, In x l -> exists u', body x = Ok u'.
Proof.
  induction l as [ | y l IH]; simpl; intros H x Hx; [contradiction | ].
  destruct (body y) as [u' | ] eqn:Hy; simpl in H; [ | discriminate].
  destruct Hx as [<- | Hx]; [eauto | exact (IH H x Hx)].
Qed.

Lemma str_in_In (k : string) (l : list string) :
  str_in k l = true <-> In k l.
Proof.
  split; [ | apply str_in_true].
  unfold str_in. intros H. apply existsb_exists in H.
  destruct H as (k' & Hin & He). apply String.eqb_eq in He. now subst.
Qed.

Lemma py_or_false (a b : result bool) :
  py_or a b = Ok false <-> a = Ok false /\ b = Ok false.
Proof.
  unfold py_or. destruct a as [[ | ] | ]; cbn [bind]; split;
    try discriminate; try tauto; intros [H _]; discriminate.
Qed.

(** The keyword list of [src/code/AIS/AIS.py] holds the seven keys. *)
Lemma sorted_keywords (k : string) :
  In k ["binn"; "ccd_temp"; "em_gain"; "em_mode"; "hss"; "preamp";
        "t_exp"]%string <-> In k keywords.
Proof. unfold keywords. simpl. tauto. Qed.

(** [src/code/AIS/AIS.py], lines 190-251: [_verify_ccd_operation_mode]
    accepts a mode exactly when it holds a value for each of the seven keys
    and no other key, [em_mode == 0], [em_gain == 1], [preamp] is in
    [[1, 2]], [hss] in [[0.1, 1, 10, 20, 30]], [binn] in [[1, 2]], [t_exp]
    is an [int] or a [float] for which [t_exp < 1e-5] is false, and
    [ccd_temp] is an [int] or a [float] for which both [ccd_temp < -80] and
    [ccd_temp > 20] are false. *)
Theorem verify_accepts_exactly (d : dict) :
  A._verify_ccd_operation_mode d = Ok tt <->
  exists m g h p b t T,
    getitem d "em_mode" = Ok m /\ getitem d "em_gain" = Ok g
    /\ getitem d "hss" = Ok h /\ getitem d "preamp" = Ok p
    /\ getitem d "binn" = Ok b /\ getitem d "t_exp" = Ok t
    /\ getitem d "ccd_temp" = Ok T
    /\ (forall k, In k (keys d) -> In k keywords)
    /\ py_eq m (VInt 0) = true /\ py_eq g (VInt 1) = true
    /\ py_in p [VInt 1; VInt 2] = true
    /\ py_in h [VFloat f0_1; VInt 1; VInt 10; VInt 20; VInt 30] = true
    /\ py_in b [VInt 1; VInt 2] = true
    /\ type_in t [ty_float; ty_int] = true
    /\ py_lt t (VFloat f1e_5) = Ok false
    /\ type_in T [ty_float; ty_int] = true
    /\ py_lt T (VInt (-80)) = Ok false
    /\ py_gt T (VInt 20) = Ok false.
Proof.
  split.
  - intros H.
    destruct (A_verify_Ok d tt H)
      as (m & g & h & p & b & t & T & Em & Eg & Eh & Ep & Eb & Et & ET
          & E0 & E1 & Hp & Hh & Hb).
    exists m, g, h, p, b, t, T.
    unfold A._verify_ccd_operation_mode in H.
    rewrite Em, Eg, Eh, Ep, Eb, Et, ET in H. cbn [bind] in H.
    destruct (for_each _ _) as [u | ] eqn:Ef; cbn [bind] in H;
      [ | discriminate].
    unfold list_sort in H.
    change (raise_if (py_ne VNone VNone) ValueError) with (Ok tt) in H.
    cbn [bind] in H.
    assert (Hm : py_in m [VInt 0; VInt 1] = true).
    { unfold py_in. cbn [existsb]. now rewrite E0. }
    unfold py_ne in H. rewrite Hm, E0, E1, Hp, Hh, Hb in H.
    cbn [negb raise_if bind] in H.
    destruct (type_in t [ty_float; ty_int]) eqn:Ht; cbn [negb] in H;
      [ | discriminate].
    destruct (py_lt t (VFloat f1e_5)) as [[ | ] | ] eqn:Hs;
      cbn [bind raise_if] in H; try discriminate.
    destruct (type_in T [ty_float; ty_int]) eqn:HT;
      cbn [negb raise_if bind] in H; [ | discriminate].
    destruct (py_or _ _) as [[ | ] | ] eqn:Ho; cbn [bind raise_if] in H;
      try discriminate.
    apply py_or_false in Ho. destruct Ho as [Ho1 Ho2].
    repeat split; auto.
    intros k Hk. destruct (for_each_Ok_inv _ _ _ Ef k Hk) as [u' Hu].
    apply raise_if_Ok in Hu. apply negb_false_iff in Hu.
    apply str_in_In in Hu. now apply sorted_keywords.
  - intros (m & g & h & p & b & t & T & Em & Eg & Eh & Ep & Eb & Et & ET
            & Hk & E0 & E1 & Hp & Hh & Hb & Ht & Hs & HT & Ho1 & Ho2).
    unfold A._verify_ccd_operation_mode.
    rewrite Em, Eg, Eh, Ep, Eb, Et, ET. cbn [bind].
    rewrite for_each_Ok.
    + cbn [bind]. unfold list_sort.
      change (raise_if (py_ne VNone VNone) ValueError) with (Ok tt).
      cbn [bind].
      assert (Hm : py_in m [VInt 0; VInt 1] = true).
      { unfold py_in. cbn [existsb]. now rewrite E0. }
      unfold py_ne. rewrite Hm, E0, E1, Hp, Hh, Hb, Ht, HT.
      cbn [negb raise_if bind]. rewrite Hs. cbn [bind raise_if].
      rewrite (proj2 (py_or_false _ _) (conj Ho1 Ho2)). reflexivity.
    + intros k Hin. apply Hk in Hin. apply sorted_keywords in Hin.
      apply str_in_true in Hin. now rewrite Hin.
Qed.

End Validation_exactly.

Section Validation_numbers.
Import Py.

Lemma py_lt_int (a b : Z) : py_lt (VInt a) (VInt b) = Ok (a <? b).
Proof. unfold py_lt, Z.ltb. simpl. now destruct (a ?= b). Qed.

(** An integer is below the exposure limit exactly when it is not
    positive. *)
Lemma py_lt_int_f1e_5 (n : Z) : py_lt (VInt n) (VFloat f1e_5) = Ok (n <=? 0).
Proof.
  unfold py_lt. cbn [as_num num_compare]. rewrite Prim2SF_f1e_5.
  unfold Z_SF_compare.
  change (0 <=? -69) with false. cbv iota.
  change (2 ^ (- -69)) with 590295810358705651712.
  destruct (Z.compare_spec (n * 590295810358705651712) 5902958103587057),
    (Z.leb_spec n 0); try lia; reflexivity.
Qed.

Lemma is_nan_Prim2SF (f : float) : is_nan f = true -> Prim2SF f = S754_nan.
Proof. intros H. unfold Prim2SF. now rewrite H. Qed.

(** No comparison with a number that is not one holds. *)
Lemma py_lt_nan (f : float) (v : value) :
  is_nan f = true -> as_num v <> None ->
  py_lt (VFloat f) v = Ok false /\ py_lt v (VFloat f) = Ok false.
Proof.
  intros Hf Hv. apply is_nan_Prim2SF in Hf.
  assert (Hc : forall g, float_compare f g = None
                         /\ float_compare g f = None).
  { intros g. unfold float_compare.
    rewrite !FloatAxioms.compare_spec, Hf.
    split; [reflexivity | now destruct (Prim2SF g)]. }
  unfold py_lt. destruct (as_num v) as [[n | g] | ]; [ | | contradiction];
    cbn [as_num num_compare]; rewrite ?Hf; cbn [Z_SF_compare option_map].
  - split; reflexivity.
  - destruct (Hc g) as [-> ->]. split; reflexivity.
Qed.

(** [src/code/AIS/AIS.py], lines 239-251, for a mode whose [t_exp] and
    [ccd_temp] are integers [n] and [T]: it is accepted exactly when the
    other five values are as [verify_accepts_exactly] says, no key is
    foreign, [n >= 1] and [-80 <= T <= 20]. *)
Theorem verify_integer_bounds (d : dict) (n T : Z) :
  getitem d "t_exp" = Ok (VInt n) -> getitem d "ccd_temp" = Ok (VInt T) ->
  (A._verify_ccd_operation_mode d = Ok tt <->
   (exists m g h p b,
       getitem d "em_mode" = Ok m /\ getitem d "em_gain" = Ok g
       /\ getitem d "hss" = Ok h /\ getitem d "preamp" = Ok p
       /\ getitem d "binn" = Ok b
       /\ (forall k, In k (keys d) -> In k keywords)
       /\ py_eq m (VInt 0) = true /\ py_eq g (VInt 1) = true
       /\ py_in p [VInt 1; VInt 2] = true
       /\ py_in h [VFloat f0_1; VInt 1; VInt 10; VInt 20; VInt 30] = true
       /\ py_in b [VInt 1; VInt 2] = true)
   /\ 1 <= n /\ -80 <= T <= 20).
Proof.
  intros Et ET. rewrite verify_accepts_exactly. split.
  - intros (m & g & h & p & b & t & T' & Em & Eg & Eh & Ep & Eb & Et' & ET'
            & Hk & E0 & E1 & Hp & Hh & Hb & _ & Hs & _ & Ho1 & Ho2).
    rewrite Et in Et'. injection Et' as <-.
    rewrite ET in ET'. injection ET' as <-.
    rewrite py_lt_int_f1e_5 in Hs. unfold py_gt in Ho2.
    rewrite py_lt_int in Ho1, Ho2.
    injection Hs as Hs. injection Ho1 as Ho1. injection Ho2 as Ho2.
    apply Z.leb_gt in Hs. apply Z.ltb_ge in Ho1, Ho2.
    split; [ | lia]. exists m, g, h, p, b. repeat split; auto.
  - intros ((m & g & h & p & b & Em & Eg & Eh & Ep & Eb & Hk & E0 & E1
             & Hp & Hh & Hb) & Hn & HT).
    exists m, g, h, p, b, (VInt n), (VInt T).
    repeat split; auto.
    + rewrite py_lt_int_f1e_5. f_equal. apply Z.leb_gt. lia.
    + rewrite py_lt_int. f_equal. apply Z.ltb_ge. lia.
    + unfold py_gt. rewrite py_lt_int. f_equal. apply Z.ltb_ge. lia.
Qed.

Lemma verify_integer_bounds_witness :
  A._verify_ccd_operation_mode Inputs.conventional = Ok tt <->
  (exists m g h p b,
      getitem Inputs.conventional "em_mode" = Ok m
      /\ getitem Inputs.conventional "em_gain" = Ok g
      /\ getitem Inputs.conventional "hss" = Ok h
      /\ getitem Inputs.conventional "preamp" = Ok p
      /\ getitem Inputs.conventional "binn" = Ok b
      /\ (forall k, In k (keys Inputs.conventional) -> In k keywords)
      /\ py_eq m (VInt 0) = true /\ py_eq g (VInt 1) = true
      /\ py_in p [VInt 1; VInt 2] = true
      /\ py_in h [VFloat f0_1; VInt 1; VInt 10; VInt 20; VInt 30] = true
      /\ py_in b [VInt 1; VInt 2] = true)
  /\ 1 <= 1 /\ -80 <= -70 <= 20.
Proof.
  exact (verify_integer_bounds Inputs.conventional 1 (-70) eq_refl eq_refl).
Defined.

(** [src/code/AIS/AIS.py], lines 239-251: the two range checks are
    written as rejections ([t_exp < 1e-5], [ccd_temp < -80 or
    ccd_temp > 20]), so a float that is not a number passes them.  A mode
    [d'] that differs from an accepted mode [d] only by such a [t_exp], or
    only by such a [ccd_temp], is accepted. *)
Theorem verify_accepts_nan (d d' : dict) (key : string) (f : float) :
  A._verify_ccd_operation_mode d = Ok tt ->
  key = "t_exp"%string \/ key = "ccd_temp"%string ->
  keys d' = keys d ->
  (forall k, k <> key -> getitem d' k = getitem d k) ->
  getitem d' key = Ok (VFloat f) ->
  is_nan f = true ->
  A._verify_ccd_operation_mode d' = Ok tt.
Proof.
  intros H Hkey Hkeys Hsame Hf Hnan.
  apply verify_accepts_exactly in H. apply verify_accepts_exactly.
  destruct H as (m & g & h & p & b & t & T & Em & Eg & Eh & Ep & Eb & Et
                 & ET & Hk & E0 & E1 & Hp & Hh & Hb & Ht & Hs & HT
                 & Ho1 & Ho2).
  assert (Hlt : forall v, as_num v <> None ->
                  py_lt (VFloat f) v = Ok false
                  /\ py_lt v (VFloat f) = Ok false).
  { intros v. now apply py_lt_nan. }
  destruct Hkey as [-> | ->].
  - exists m, g, h, p, b, (VFloat f), T. rewrite Hkeys.
    repeat split; try (rewrite Hsame by discriminate); auto.
    apply Hlt. discriminate.
  - exists m, g, h, p, b, t, (VFloat f). rewrite Hkeys.
    repeat split; try (rewrite Hsame by discriminate); auto;
      unfold py_gt; apply Hlt; discriminate.
Qed.

Lemma verify_accepts_nan_witness :
  A._verify_ccd_operation_mode Inputs.nan_temperature = Ok tt
  /\ A._verify_ccd_operation_mode Inputs.nan_exposure = Ok tt.
Proof.
  split.
  - apply (verify_accepts_nan Inputs.conventional Inputs.nan_temperature
             "ccd_temp" nan); try reflexivity.
    + now right.
    + intros k Hk. unfold getitem. simpl.
      repeat match goal with
             | |- context [String.eqb k ?s] =>
                 destruct (String.eqb_spec k s); [try reflexivity | ]
             end; try reflexivity.
      now subst.
  - apply (verify_accepts_nan Inputs.conventional Inputs.nan_exposure
             "t_exp" nan); try reflexivity.
    + now left.
    + intros k Hk. unfold getitem. simpl.
      repeat match goal with
             | |- context [String.eqb k ?s] =>
                 destruct (String.eqb_spec k s); [try reflexivity | ]
             end; try reflexivity.
      now subst.
Defined.

End Validation_numbers.

Section Validation_first_revision.
Import Py.

Lemma getitem_of_key (d : dict) (k : string) :
  In k (keys d) -> exists v, getitem d k = Ok v.
Proof.
  unfold getitem, keys. induction d as [ | [k' v] d IH]; simpl;
    [contradiction | ].
  intros [-> | H].
  - rewrite String.eqb_refl. eauto.
  - destruct (String.eqb k k'); [eauto | exact (IH H)].
Qed.

Lemma list_ne_false (l1 l2 : list string) :
  B.list_ne l1 l2 = false <-> l1 = l2.
Proof.
  unfold B.list_ne. destruct (list_eq_dec string_dec l1 l2); split;
    (discriminate || tauto || auto).
Qed.

(** [src/AIS/AIS.py], lines 197-236: [_verify_ccd_operation_mode] accepts
    a mode exactly when its keys are the seven of the keyword list in that
    order, [em_mode] is in [[0, 1]], [em_gain == 1] if [em_mode == 0] and
    otherwise neither [em_gain < 2] nor [em_gain > 300], [preamp] is in
    [[1, 2]], [hss] in [[0.1, 1, 10, 20, 30]], [bin] in [[1, 2]], and the
    three comparisons [t_exp < 1e-5], [ccd_temp < -80] and [ccd_temp > 20]
    are false (none of them raising). *)
Theorem first_revision_accepts_exactly (d : dict) :
  B._verify_ccd_operation_mode d = Ok tt <->
  keys d = B.dic_keywords_list
  /\ exists m g p h b t T,
      getitem d "em_mode" = Ok m /\ getitem d "em_gain" = Ok g
      /\ getitem d "preamp" = Ok p /\ getitem d "hss" = Ok h
      /\ getitem d "bin" = Ok b /\ getitem d "t_exp" = Ok t
      /\ getitem d "ccd_temp" = Ok T
      /\ py_in m [VInt 0; VInt 1] = true
      /\ (if py_eq m (VInt 0) then py_eq g (VInt 1) = true
          else py_lt g (VInt 2) = Ok false /\ py_gt g (VInt 300) = Ok false)
      /\ py_in p [VInt 1; VInt 2] = true
      /\ py_in h [VFloat f0_1; VInt 1; VInt 10; VInt 20; VInt 30] = true
      /\ py_in b [VInt 1; VInt 2] = true
      /\ py_lt t (VFloat f1e_5) = Ok false
      /\ py_lt T (VInt (-80)) = Ok false
      /\ py_gt T (VInt 20) = Ok false.
Proof.
  split.
  - intros H. unfold B._verify_ccd_operation_mode in H.
    destruct (for_each _ _) as [u | ]; cbn [bind] in H; [ | discriminate].
    destruct (B.list_ne (keys d) B.dic_keywords_list) eqn:Hk;
      cbn [raise_if bind] in H; [discriminate | ].
    apply list_ne_false in Hk. split; [exact Hk | ].
    destruct (getitem d "em_mode") as [m | ]; cbn [bind] in H;
      [ | discriminate].
    destruct (py_in m [VInt 0; VInt 1]) eqn:Hm; cbn [negb raise_if bind] in H;
      [ | discriminate].
    destruct (getitem d "em_gain") as [g | ] eqn:Eg.
    2:{ destruct (py_eq m (VInt 0)); discriminate. }
    assert (Hg : (if py_eq m (VInt 0) then py_eq g (VInt 1) = true
                  else py_lt g (VInt 2) = Ok false
                       /\ py_gt g (VInt 300) = Ok false)
                 /\ (let* preamp := getitem d "preamp" in
                     let* _ := raise_if (negb (py_in preamp [VInt 1; VInt 2]))
                                 ValueError in
                     let* hss := getitem d "hss" in
                     let* _ := raise_if
                                 (negb (py_in hss [VFloat f0_1; VInt 1;
                                                   VInt 10; VInt 20; VInt 30]))
                                 ValueError in
                     let* bin := getitem d "bin" in
                     let* _ := raise_if (negb (py_in bin [VInt 1; VInt 2]))
                                 ValueError in
                     let* t_exp := getitem d "t_exp" in
                     let* short := py_lt t_exp (VFloat f1e_5) in
                     let* _ := raise_if short ValueError in
                     let* out :=
                       py_or (let* ccd_temp := getitem d "ccd_temp" in
                              py_lt ccd_temp (VInt (-80)))
                             (let* ccd_temp := getitem d "ccd_temp" in
                              py_gt ccd_temp (VInt 20)) in
                     raise_if out ValueError) = Ok tt).
    { destruct (py_eq m (VInt 0)); cbn [bind] in H.
      - unfold py_ne in H.
        destruct (py_eq g (VInt 1)); cbn [negb raise_if bind] in H;
          [auto | discriminate].
      - destruct (py_or _ _) as [[ | ] | ] eqn:Ho; cbn [bind raise_if] in H;
          try discriminate.
        apply py_or_false in Ho. auto. }
    clear H. destruct Hg as [Hg H].
    destruct (getitem d "preamp") as [p | ]; cbn [bind] in H;
      [ | discriminate].
    destruct (py_in p [VInt 1; VInt 2]) eqn:Hp; cbn [negb raise_if bind] in H;
      [ | discriminate].
    destruct (getitem d "hss") as [h | ]; cbn [bind] in H; [ | discriminate].
    destruct (py_in h _) eqn:Hh; cbn [negb raise_if bind] in H;
      [ | discriminate].
    destruct (getitem d "bin") as [b | ]; cbn [bind] in H; [ | discriminate].
    destruct (py_in b [VInt 1; VInt 2]) eqn:Hb; cbn [negb raise_if bind] in H;
      [ | discriminate].
    destruct (getitem d "t_exp") as [t | ]; cbn [bind] in H;
      [ | discriminate].
    destruct (py_lt t (VFloat f1e_5)) as [[ | ] | ] eqn:Hs;
      cbn [bind raise_if] in H; try discriminate.
    destruct (getitem d "ccd_temp") as [T | ]; cbn [bind] in H;
      [ | discriminate].
    destruct (py_or _ _) as [[ | ] | ] eqn:Ho; cbn [bind raise_if] in H;
      try discriminate.
    apply py_or_false in Ho. destruct Ho as [Ho1 Ho2].
    exists m, g, p, h, b, t, T. repeat split; auto.
  - intros (Hk & m & g & p & h & b & t & T & Em & Eg & Ep & Eh & Eb & Et
            & ET & Hm & Hg & Hp & Hh & Hb & Hs & Ho1 & Ho2).
    unfold B._verify_ccd_operation_mode.
    rewrite for_each_Ok.
    + cbn [bind]. rewrite (proj2 (list_ne_false _ _) Hk).
      cbn [raise_if bind]. rewrite Em. cbn [bind]. rewrite Hm.
      cbn [negb raise_if bind]. rewrite Eg, Ep, Eh, Eb, Et, ET.
      cbn [bind].
      assert (Hgain :
                (if py_eq m (VInt 0)
                 then raise_if (py_ne g (VInt 1)) ValueError
                 else let* out := py_or (py_lt g (VInt 2))
                                        (py_gt g (VInt 300)) in
                      raise_if out ValueError) = Ok tt).
      { destruct (py_eq m (VInt 0)).
        - unfold py_ne. now rewrite Hg.
        - now rewrite (proj2 (py_or_false _ _) Hg). }
      rewrite Hgain. cbn [bind]. rewrite Hp, Hh, Hb, Hs.
      cbn [negb raise_if bind].
      now rewrite (proj2 (py_or_false _ _) (conj Ho1 Ho2)).
    + intros k Hin. rewrite Hk in Hin. apply str_in_true in Hin.
      now rewrite Hin.
Qed.

End Validation_first_revision.

(* ================================================================== *)
(** * Further properties of the constructors *)

Section Scalars_exactly.
Import Py.

Lemma Prim2SF_nan (f : float) : Prim2SF f = S754_nan <-> is_nan f = true.
Proof.
  split; [ | apply is_nan_Prim2SF].
  unfold Prim2SF. destruct (is_nan f); [reflexivity | ].
  destruct (is_zero f); [discriminate | ].
  destruct (is_infinity f); [discriminate | ].
  destruct (Z.frexp f) as [r e]. destruct (shr_fexp _ _ _ _ _) as [shr e'].
  destruct (shr_m shr); discriminate.
Qed.

(** An accepted value is returned as it is. *)
Lemma Ok_same {T : Type} (m : result T) (v v' : T) :
  m = Ok v \/ m = Raise ValueError -> m = Ok v' -> v' = v.
Proof. intros [-> | ->] H; [now injection H | discriminate]. Qed.

(** [src/code/AIS/AIS.py], lines 122-136, and [src/AIS/AIS.py], lines
    128-142: the two revisions accept the same fluxes, except that the
    test [star_flux <= 0] of the first lets a float that is not a number
    through and the test [star_flux > 0] of the second does not. *)
Theorem flux_checks_differ_on_nan (v : value) :
  (B.check_star_flux v = Ok v -> A.check_star_flux v = Ok v)
  /\ (A.check_star_flux v = Ok v /\ B.check_star_flux v <> Ok v
      <-> exists f, v = VFloat f /\ is_nan f = true)
  /\ (B.check_sky_flux v = Ok v -> A.check_sky_flux v = Ok v)
  /\ (A.check_sky_flux v = Ok v /\ B.check_sky_flux v <> Ok v
      <-> exists f, v = VFloat f /\ is_nan f = true).
Proof.
  assert (Hf : forall f,
             (B.check_star_flux (VFloat f) = Ok (VFloat f) ->
              A.check_star_flux (VFloat f) = Ok (VFloat f))
             /\ (A.check_star_flux (VFloat f) = Ok (VFloat f)
                 /\ B.check_star_flux (VFloat f) <> Ok (VFloat f)
                 <-> is_nan f = true)).
  { intros f. rewrite <- Prim2SF_nan.
    unfold A.check_star_flux, B.check_star_flux, py_gt, py_lt, py_le.
    cbn [type_in type_of existsb pytype_eqb orb negb as_num num_compare bind].
    destruct (Prim2SF f) as [s | s | | s m e]; cbn [Z_SF_compare option_map].
    - cbn. split; [discriminate | ]. split; [intros [H _] | ]; discriminate.
    - destruct s; cbn; (split; [auto | ]);
        (split; [intros [H1 H2]; congruence | discriminate]).
    - cbn. split; [discriminate | ]. split; [reflexivity | ].
      intros _. split; [reflexivity | discriminate].
    - destruct (if 0 <=? e then _ else _); cbn; (split; [auto | ]);
        (split; [intros [H1 H2]; congruence | discriminate]). }
  assert (Hi : forall n, A.check_star_flux (VInt n) = Ok (VInt n)
                         <-> B.check_star_flux (VInt n) = Ok (VInt n)).
  { intros n. unfold A.check_star_flux, B.check_star_flux, py_gt, py_lt, py_le.
    cbn [type_in type_of existsb pytype_eqb orb negb as_num num_compare bind].
    rewrite (Z.compare_antisym n 0).
    destruct (n ?= 0); cbn; split; congruence. }
  assert (Hall :
            (B.check_star_flux v = Ok v -> A.check_star_flux v = Ok v)
            /\ (A.check_star_flux v = Ok v /\ B.check_star_flux v <> Ok v
                <-> exists f, v = VFloat f /\ is_nan f = true)).
  { destruct v as [ | b | n | f | s | t];
      try (split; [discriminate | ];
           split; [intros [H _]; discriminate
                  | intros (f & H & _); discriminate]).
    - split; [apply Hi | ]. split.
      + intros [H1 H2]. apply Hi in H1. contradiction.
      + intros (f & H & _). discriminate.
    - destruct (Hf f) as [H1 H2]. split; [exact H1 | ].
      rewrite H2. split; [eauto | ].
      intros (f' & H & Hn). now injection H as ->. }
  destruct Hall as [H1 H2].
  split; [exact H1 | split; [exact H2 | split; [exact H1 | exact H2]]].
Qed.

End Scalars_exactly.

Section Constructed.
Import Py.

Lemma A_check_flux_Ok (v v' : value) :
  A.check_star_flux v = Ok v' <->
  v' = v /\ type_in v [ty_int; ty_float] = true
  /\ py_le v (VInt 0) = Ok false.
Proof.
  unfold A.check_star_flux.
  destruct (type_in v [ty_int; ty_float]); cbn [negb].
  - destruct (py_le v (VInt 0)) as [[ | ] | ]; cbn [bind]; split;
      try discriminate; try (intros (_ & _ & H); discriminate).
    + intros H. now injection H as <-.
    + intros (-> & _). reflexivity.
  - split; [discriminate | intros (_ & H & _); discriminate].
Qed.

Lemma A_check_positive_int_Ok (v v' : value) :
  A.check_bias_level v = Ok v' <-> v' = v /\ exists n, v = VInt n /\ 0 < n.
Proof.
  destruct v as [ | b | n | f | s | t];
    try (split; [discriminate | intros (_ & n & H & _); discriminate]).
  rewrite A_check_bias_level_int. destruct (Z.leb_spec n 0); split.
  - discriminate.
  - intros (_ & n' & H' & Hn). injection H' as <-. lia.
  - intros H'. injection H' as <-. eauto.
  - intros (-> & _). reflexivity.
Qed.

Lemma A_check_channel_Ok (v v' : value) :
  A.check_channel v = Ok v' <->
  v' = v /\ py_in v [VInt 1; VInt 2; VInt 3; VInt 4] = true.
Proof.
  unfold A.check_channel. destruct (py_in v _); split.
  - intros H. now injection H as <-.
  - intros (-> & _). reflexivity.
  - discriminate.
  - intros (_ & H). discriminate.
Qed.

(** [src/code]: an accepted mode has a row in the spreadsheet and a
    name. *)
Lemma A_verify_tab_index (d : dict) (u : unit) :
  A._verify_ccd_operation_mode d = Ok u -> exists i, A.tab_index d = Ok i.
Proof.
  intros H.
  destruct (A_verify_Ok d u H)
    as (m & g & h & p & b & t & T & Em & Eg & Eh & Ep & Eb & Et & ET
        & E0 & E1 & Hp & Hh & Hb).
  unfold A.tab_index. rewrite Em, Eh, Ep. cbn [bind].
  unfold py_in in Hh. cbn [existsb] in Hh.
  destruct (py_eq h (VFloat f0_1)); [eexists; reflexivity | ].
  destruct (py_eq h (VInt 1)); [eexists; reflexivity | ].
  destruct (py_eq h (VInt 10)); [eexists; reflexivity | ].
  destruct (py_eq h (VInt 20)); [eexists; reflexivity | ].
  destruct (py_eq h (VInt 30)); [eexists; reflexivity | discriminate].
Qed.

Lemma A_verify_image_name (repr_float : float -> string) (d : dict)
    (u : unit) (sf : value) :
  A._verify_ccd_operation_mode d = Ok u ->
  exists name, A._configure_image_name repr_float sf d false = Ok name.
Proof.
  intros H.
  destruct (A_verify_Ok d u H)
    as (m & g & h & p & b & t & T & Em & Eg & Eh & Ep & Eb & Et & ET & _).
  unfold A._configure_image_name. rewrite Eg, Em, Eh, Ep, Eb, Et.
  cbn [bind]. eexists. reflexivity.
Qed.

(** The channel call of lines 175-182 raises, whichever branch is taken,
    and one is taken for a channel that passed the check of line 147. *)
Lemma A_channel_call_raises (d : dict) (T ch : value) :
  getitem d "ccd_temp" = Ok T ->
  py_in ch [VInt 1; VInt 2; VInt 3; VInt 4] = true ->
  (let Concrete_Channel c :=
     let* ccd_temp := getitem d "ccd_temp" in
     let* o := CHC.call c [ccd_temp] in
     Ok (Some o) in
   if py_eq ch (VInt 1) then Concrete_Channel CHC.Concrete_Channel_1
   else if py_eq ch (VInt 2) then Concrete_Channel CHC.Concrete_Channel_2
   else if py_eq ch (VInt 3) then Concrete_Channel CHC.Concrete_Channel_3
   else if py_eq ch (VInt 4) then Concrete_Channel CHC.Concrete_Channel_4
   else Ok None) = Raise TypeError.
Proof.
  intros ET Hin. unfold py_in in Hin. cbn [existsb] in Hin.
  cbv zeta. rewrite ET. cbn [bind CHC.call].
  destruct (py_eq ch (VInt 1)); [reflexivity | ].
  destruct (py_eq ch (VInt 2)); [reflexivity | ].
  destruct (py_eq ch (VInt 3)); [reflexivity | ].
  destruct (py_eq ch (VInt 4)); [reflexivity | discriminate].
Qed.

(** [src/code/AIS/AIS.py], lines 113-188, with line 38 of
    [src/code/CHC/channel_creator.py]: the constructor gives no object.
    When the two fluxes are [int]s or [float]s that are not [<= 0], the
    standard deviation and the bias level are positive [int]s, the channel
    is equal to one of 1, 2, 3 and 4, the directory is a string, the mode
    passes [_verify_ccd_operation_mode] and the workbook of the channel
    loads, it raises the [TypeError] of the channel call of lines 175-182,
    which gives one argument to an [__init__] of two parameters; whatever
    the arguments are, it returns no object; and the three classes that are
    called after the channel is built are never reached, so that what the
    constructor does is the same for any two versions of them. *)
Theorem constructor_never_returns (repr_float : float -> string)
    (load_workbook : string -> result (Z -> Z -> value))
    (PSF BGI HDR : Type)
    (Point_Spread_Function :
       option CHC.instance -> dict -> value -> value -> result PSF)
    (Background_Image : option CHC.instance -> dict -> value -> result BGI)
    (Header : dict -> value -> Z -> result HDR)
    (sf kf g : value) (d : dict) (ch bl dir : value) :
  (type_in sf [ty_int; ty_float] = true -> py_le sf (VInt 0) = Ok false ->
   type_in kf [ty_int; ty_float] = true -> py_le kf (VInt 0) = Ok false ->
   (exists n, g = VInt n /\ 0 < n) ->
   py_in ch [VInt 1; VInt 2; VInt 3; VInt 4] = true ->
   (exists n, bl = VInt n /\ 0 < n) ->
   type_of dir = ty_str ->
   A._verify_ccd_operation_mode d = Ok tt ->
   (exists sheet,
       load_workbook (A.spreadsheet_path repr_float ch) = Ok sheet) ->
   A.__init__ repr_float load_workbook Point_Spread_Function
     Background_Image Header sf kf g d ch bl dir = Raise TypeError)
  /\ (forall o,
         A.__init__ repr_float load_workbook Point_Spread_Function
           Background_Image Header sf kf g d ch bl dir <> Ok o)
  /\ (forall (PSF' BGI' HDR' : Type)
             (Point_Spread_Function' :
                option CHC.instance -> dict -> value -> value -> result PSF')
             (Background_Image' :
                option CHC.instance -> dict -> value -> result BGI')
             (Header' : dict -> value -> Z -> result HDR'),
         A.__init__ repr_float load_workbook Point_Spread_Function
           Background_Image Header sf kf g d ch bl dir
         = A.__init__ repr_float load_workbook Point_Spread_Function'
             Background_Image' Header' sf kf g d ch bl dir).
Proof.
  assert (Hcall : forall u ch',
             A._verify_ccd_operation_mode d = Ok u ->
             A.check_channel ch = Ok ch' ->
             (let Concrete_Channel c :=
                let* ccd_temp := getitem d "ccd_temp" in
                let* o := CHC.call c [ccd_temp] in
                Ok (Some o) in
              if py_eq ch' (VInt 1)
              then Concrete_Channel CHC.Concrete_Channel_1
              else if py_eq ch' (VInt 2)
              then Concrete_Channel CHC.Concrete_Channel_2
              else if py_eq ch' (VInt 3)
              then Concrete_Channel CHC.Concrete_Channel_3
              else if py_eq ch' (VInt 4)
              then Concrete_Channel CHC.Concrete_Channel_4
              else Ok None) = Raise TypeError).
  { intros u ch' Hv Hc.
    apply (proj1 (A_check_channel_Ok _ _)) in Hc. destruct Hc as (-> & Hin).
    destruct (A_verify_Ok d u Hv)
      as (m & g0 & h & p & b & t & T & _ & _ & _ & _ & _ & _ & ET & _).
    now apply A_channel_call_raises with T. }
  split; [ | split].
  - intros T1 L1 T2 L2 N3 C4 N5 Hdir E7 (sheet & E9).
    destruct (A_verify_tab_index d tt E7) as (i & E8).
    destruct (A_verify_image_name repr_float d tt sf E7) as (name & E10).
    assert (E4 := proj2 (A_check_channel_Ok ch ch) (conj eq_refl C4)).
    pose proof (Hcall tt ch E7 E4) as Hc. cbv zeta in Hc.
    unfold A.__init__, A._configure_gain.
    rewrite (proj2 (A_check_flux_Ok sf sf) (conj eq_refl (conj T1 L1))).
    change (A.check_sky_flux kf) with (A.check_star_flux kf).
    rewrite (proj2 (A_check_flux_Ok kf kf) (conj eq_refl (conj T2 L2))).
    change (A.check_gaussian_std g) with (A.check_bias_level g).
    rewrite (proj2 (A_check_positive_int_Ok g g) (conj eq_refl N3)).
    rewrite E4.
    rewrite (proj2 (A_check_positive_int_Ok bl bl) (conj eq_refl N5)).
    cbn [bind].
    destruct dir as [ | | | | s | ]; try discriminate Hdir.
    destruct (A.check_image_dir (VStr s)) as [dir' | ] eqn:E6.
    2:{ unfold A.check_image_dir in E6.
        destruct (py_ne _ _); [ | discriminate].
        destruct (last_char s); [ | discriminate].
        destruct (negb _); discriminate. }
    cbn [bind]. rewrite E7. cbn [bind]. rewrite E8. cbn [bind].
    rewrite E9. cbn [bind]. rewrite E10. cbn [bind].
    rewrite Hc. reflexivity.
  - intros o H. unfold A.__init__ in H.
    destruct (A.check_star_flux sf); cbn [bind] in H; [ | discriminate].
    destruct (A.check_sky_flux kf); cbn [bind] in H; [ | discriminate].
    destruct (A.check_gaussian_std g); cbn [bind] in H; [ | discriminate].
    destruct (A.check_channel ch) as [ch' | ] eqn:E4; cbn [bind] in H;
      [ | discriminate].
    destruct (A.check_bias_level bl); cbn [bind] in H; [ | discriminate].
    destruct (A.check_image_dir dir); cbn [bind] in H; [ | discriminate].
    destruct (A._verify_ccd_operation_mode d) as [u | ] eqn:E7;
      cbn [bind] in H; [ | discriminate].
    destruct (A._configure_gain _ _ _ _); cbn [bind] in H; [ | discriminate].
    destruct (A._configure_image_name _ _ _ _); cbn [bind] in H;
      [ | discriminate].
    pose proof (Hcall u ch' eq_refl eq_refl) as Hc. cbv zeta in Hc.
    rewrite Hc in H. discriminate.
  - intros PSF' BGI' HDR' psf' bgi' hdr'. unfold A.__init__.
    destruct (A.check_star_flux sf); cbn [bind]; [ | reflexivity].
    destruct (A.check_sky_flux kf); cbn [bind]; [ | reflexivity].
    destruct (A.check_gaussian_std g); cbn [bind]; [ | reflexivity].
    destruct (A.check_channel ch) as [ch' | ] eqn:E4; cbn [bind];
      [ | reflexivity].
    destruct (A.check_bias_level bl); cbn [bind]; [ | reflexivity].
    destruct (A.check_image_dir dir); cbn [bind]; [ | reflexivity].
    destruct (A._verify_ccd_operation_mode d) as [u | ] eqn:E7;
      cbn [bind]; [ | reflexivity].
    destruct (A._configure_gain _ _ _ _); cbn [bind]; [ | reflexivity].
    destruct (A._configure_image_name _ _ _ _); cbn [bind];
      [ | reflexivity].
    pose proof (Hcall u ch' eq_refl eq_refl) as Hc. cbv zeta in Hc.
    rewrite Hc. reflexivity.
Qed.

Lemma constructor_never_returns_witness :
  A.__init__ Inputs.repr_float Inputs.load_workbook
    Inputs.Point_Spread_Function Inputs.Background_Image Inputs.Header
    (VInt 100) (VInt 50) (VInt 3) Inputs.conventional (VInt 1)
    (VInt 500) (VStr "") = Raise TypeError.
Proof.
  apply (proj1 (constructor_never_returns
                  Inputs.repr_float Inputs.load_workbook unit unit unit
                  Inputs.Point_Spread_Function Inputs.Background_Image
                  Inputs.Header (VInt 100) (VInt 50) (VInt 3)
                  Inputs.conventional (VInt 1) (VInt 500) (VStr ""))).
  - reflexivity.
  - reflexivity.
  - reflexivity.
  - reflexivity.
  - exists 3. split; [reflexivity | lia].
  - reflexivity.
  - exists 500. split; [reflexivity | lia].
  - reflexivity.
  - reflexivity.
  - eexists. reflexivity.
Defined.

End Constructed.

Section Constructed_first_revision.
Import Py.

(** [src/AIS/AIS.py], lines 119-195 and 242-266: an object that the
    constructor returns holds its arguments unchanged (the directory with
    its closing backslash), an empty image name and zeros for the derived
    attributes; its mode has passed the validation, so that
    [_configure_image_name] cannot fail on it: it returns the name of the
    mode, and that name followed by [_S] and the star flux on request. *)
Theorem constructed_object_has_a_name (sf kf g : value) (d : dict)
    (ch bl dir : value) (o : B.simulator) :
  B.__init__ sf kf g d ch bl dir = Ok o ->
  B.star_flux o = sf /\ B.sky_flux o = kf /\ B.gaussian_stddev o = g
  /\ B.ccd_operation_mode o = d /\ B.channel o = ch /\ B.bias_level o = bl
  /\ B.check_image_dir dir = Ok (B.image_dir o)
  /\ B.image_name o = ""%string
  /\ B.dark_current o = VInt 0 /\ B.read_noise o = VInt 0
  /\ B.gain o = VInt 0 /\ B.hdr o = []
  /\ B._verify_ccd_operation_mode d = Ok tt
  /\ exists m gn h p b t,
      getitem d "em_mode" = Ok m /\ getitem d "em_gain" = Ok gn
      /\ getitem d "hss" = Ok h /\ getitem d "preamp" = Ok p
      /\ getitem d "bin" = Ok b /\ getitem d "t_exp" = Ok t
      /\ forall repr_float,
          let name :=
            ((if py_eq m (VInt 0) then "CONV" else "EM")
               ++ "_HSS" ++ str repr_float h ++ "_PA" ++ str repr_float p
               ++ "_B" ++ str repr_float b ++ "_TEXP" ++ str repr_float t
               ++ "_G" ++ str repr_float gn)%string in
          B._configure_image_name repr_float o false = Ok name
          /\ B._configure_image_name repr_float o true
             = Ok (name ++ "_S" ++ str repr_float sf)%string.
Proof.
  intros H. unfold B.__init__ in H.
  destruct (B.check_star_flux sf) as [sf' | ] eqn:E1; cbn [bind] in H;
    [ | discriminate].
  destruct (B.check_sky_flux kf) as [kf' | ] eqn:E2; cbn [bind] in H;
    [ | discriminate].
  destruct (B.check_gaussian_stddev g) as [g' | ] eqn:E3; cbn [bind] in H;
    [ | discriminate].
  destruct (B._verify_ccd_operation_mode d) as [[] | ] eqn:E4;
    cbn [bind] in H; [ | discriminate].
  destruct (B.check_channel ch) as [ch' | ] eqn:E5; cbn [bind] in H;
    [ | discriminate].
  destruct (B.check_bias_level bl) as [bl' | ] eqn:E6; cbn [bind] in H;
    [ | discriminate].
  destruct (B.check_image_dir dir) as [dir' | ] eqn:E7; cbn [bind] in H;
    [ | discriminate].
  injection H as <-.
  apply (Ok_same _ _ _ (B_check_star_flux_cases sf)) in E1.
  apply (Ok_same _ _ _ (B_check_sky_flux_cases kf)) in E2.
  apply (Ok_same _ _ _ (B_check_gaussian_stddev_cases g)) in E3.
  apply (Ok_same _ _ _ (B_check_channel_cases ch)) in E5.
  apply (Ok_same _ _ _ (B_check_bias_level_cases bl)) in E6.
  subst. cbn.
  repeat (split; [reflexivity | ]).
  apply first_revision_accepts_exactly in E4.
  destruct E4 as (_ & m & gn & p & h & b & t & T & Em & Eg & Ep & Eh & Eb
                  & Et & _ & Hm & _).
  exists m, gn, h, p, b, t. repeat (split; [assumption | ]).
  intros rf. unfold B._configure_image_name.
  cbn [B.ccd_operation_mode B.star_flux].
  rewrite Eg, Em, Eh, Ep, Eb, Et. cbn [bind].
  rewrite (em_mode_0_or_1 m Hm).
  destruct (py_eq m (VInt 0)); cbn [negb];
    repeat (first [rewrite append_assoc | progress cbn [append]]);
    split; reflexivity.
Qed.

Lemma constructed_object_has_a_name_witness :
  exists o,
    B.__init__ (VInt 100) (VInt 50) (VInt 3) Inputs.conventional_bin
      (VInt 1) (VInt 500) (VStr "") = Ok o
    /\ B.image_name o = ""%string
    /\ B._configure_image_name Inputs.repr_float o true
       = Ok "CONV_HSS1_PA1_B1_TEXP1_G1_S100"%string.
Proof.
  eexists. split; [reflexivity | ].
  split.
  - refine (proj1 (proj2 (proj2 (proj2 (proj2 (proj2 (proj2 (proj2
              (constructed_object_has_a_name
                 (VInt 100) (VInt 50) (VInt 3) Inputs.conventional_bin
                 (VInt 1) (VInt 500) (VStr "") _ eq_refl))))))))).
  - reflexivity.
Defined.

End Constructed_first_revision.

(* ================================================================== *)
(** * Further properties of the gain row *)

Section Rows.
Import Py.

(** A readout rate is equal to at most one of the five listed. *)
Lemma hss_one_of (h : value) :
  let t := fun c => py_eq h c in
  (t (VFloat f0_1) = true /\ t (VInt 1) = false /\ t (VInt 10) = false
   /\ t (VInt 20) = false /\ t (VInt 30) = false)
  \/ (t (VFloat f0_1) = false /\ t (VInt 1) = true /\ t (VInt 10) = false
      /\ t (VInt 20) = false /\ t (VInt 30) = false)
  \/ (t (VFloat f0_1) = false /\ t (VInt 1) = false /\ t (VInt 10) = true
      /\ t (VInt 20) = false /\ t (VInt 30) = false)
  \/ (t (VFloat f0_1) = false /\ t (VInt 1) = false /\ t (VInt 10) = false
      /\ t (VInt 20) = true /\ t (VInt 30) = false)
  \/ (t (VFloat f0_1) = false /\ t (VInt 1) = false /\ t (VInt 10) = false
      /\ t (VInt 20) = false /\ t (VInt 30) = true)
  \/ (t (VFloat f0_1) = false /\ t (VInt 1) = false /\ t (VInt 10) = false
      /\ t (VInt 20) = false /\ t (VInt 30) = false).
Proof.
  cbv zeta.
  destruct (py_eq h (VFloat f0_1)) eqn:E0.
  { left. repeat split; now apply py_eq_f0_1_not_int. }
  destruct (py_eq h (VInt 1)) eqn:E1.
  { right; left. repeat split; apply (py_eq_int_other h 1); (lia || auto). }
  destruct (py_eq h (VInt 10)) eqn:E2.
  { right; right; left.
    repeat split; apply (py_eq_int_other h 10); (lia || auto). }
  destruct (py_eq h (VInt 20)) eqn:E3.
  { right; right; right; left.
    repeat split; apply (py_eq_int_other h 20); (lia || auto). }
  destruct (py_eq h (VInt 30)) eqn:E4; tauto.
Qed.

(** [src/code/AIS/AIS.py], lines 286-305: the rows of the spreadsheet are
    odd numbers from 3 to 25, and two modes get the same row exactly when
    they agree on which listed readout rate [hss] equals, on whether
    [preamp == 2], and, at the rate 1 only, on whether [em_mode == 1].  At
    the four other rates the row does not depend on [em_mode]: there a
    conventional and an electron-multiplying mode share their row. *)
Theorem rows_shared_exactly (d1 d2 : dict) (m1 h1 p1 m2 h2 p2 : value)
    (i1 i2 : Z) :
  getitem d1 "em_mode" = Ok m1 -> getitem d1 "hss" = Ok h1 ->
  getitem d1 "preamp" = Ok p1 ->
  getitem d2 "em_mode" = Ok m2 -> getitem d2 "hss" = Ok h2 ->
  getitem d2 "preamp" = Ok p2 ->
  A.tab_index d1 = Ok i1 -> A.tab_index d2 = Ok i2 ->
  In i1 [3; 5; 7; 9; 11; 13; 15; 17; 19; 21; 23; 25]
  /\ (i1 = i2 <->
      py_eq h1 (VFloat f0_1) = py_eq h2 (VFloat f0_1)
      /\ py_eq h1 (VInt 1) = py_eq h2 (VInt 1)
      /\ py_eq h1 (VInt 10) = py_eq h2 (VInt 10)
      /\ py_eq h1 (VInt 20) = py_eq h2 (VInt 20)
      /\ py_eq h1 (VInt 30) = py_eq h2 (VInt 30)
      /\ py_eq p1 (VInt 2) = py_eq p2 (VInt 2)
      /\ (py_eq h1 (VInt 1) = true ->
          py_eq m1 (VInt 1) = py_eq m2 (VInt 1))).
Proof.
  intros Em1 Eh1 Ep1 Em2 Eh2 Ep2. unfold A.tab_index.
  rewrite Em1, Eh1, Ep1, Em2, Eh2, Ep2. cbn [bind].
  destruct (hss_one_of h1) as [H | [H | [H | [H | [H | H]]]]];
    destruct H as (-> & -> & -> & -> & ->);
    destruct (hss_one_of h2) as [H | [H | [H | [H | [H | H]]]]];
    destruct H as (-> & -> & -> & -> & ->);
    destruct (py_eq m1 (VInt 1)), (py_eq m2 (VInt 1)),
      (py_eq p1 (VInt 2)), (py_eq p2 (VInt 2));
    cbn [bind]; intros H1 H2; try discriminate;
    injection H1 as <-; injection H2 as <-;
    (split; [simpl; tauto | ]);
    (split;
     [ intros E; try discriminate E;
       repeat split; try reflexivity; intros; try discriminate; reflexivity
     | intros (A0 & A1 & A2 & A3 & A4 & A5 & A6);
       try discriminate; try reflexivity;
       specialize (A6 eq_refl); discriminate ]).
Qed.

Lemma rows_shared_exactly_witness :
  In 11 [3; 5; 7; 9; 11; 13; 15; 17; 19; 21; 23; 25]
  /\ A.tab_index [("em_mode", VInt 0); ("hss", VInt 10);
                  ("preamp", VInt 1)]%string
     = A.tab_index [("em_mode", VInt 1); ("hss", VFloat 10);
                    ("preamp", VBool true)]%string.
Proof.
  pose proof (rows_shared_exactly
                [("em_mode", VInt 0); ("hss", VInt 10);
                 ("preamp", VInt 1)]%string
                [("em_mode", VInt 1); ("hss", VFloat 10);
                 ("preamp", VBool true)]%string
                (VInt 0) (VInt 10) (VInt 1)
                (VInt 1) (VFloat 10) (VBool true) 11 11
                eq_refl eq_refl eq_refl eq_refl eq_refl eq_refl
                eq_refl eq_refl) as H.
  destruct H as (H1 & _).
  split; [exact H1 | reflexivity].
Defined.

End Rows.

(* ================================================================== *)
(** * Further properties of the composition *)

Section Overwrite.

Variables (pixel header rng : Type).
Variable pixel_add : pixel -> pixel -> pixel.
Variable create_background_image : rng -> result (A.ndarray pixel * rng).
Variable create_star_PSF : result (A.ndarray pixel).
Variable create_header : result header.

(** What a successful call has done. *)
Lemma create_Ok (self : A.simulator) (fs fs' : A.filesystem pixel header)
    (g g' : rng) :
  A.create_artificial_image pixel header rng pixel_add
    create_background_image create_star_PSF create_header self fs g
  = Ok (fs', g') ->
  exists background star_PSF hdr data,
    create_background_image g = Ok (background, g')
    /\ create_star_PSF = Ok star_PSF
    /\ create_header = Ok hdr
    /\ A.ndarray_add pixel pixel_add background star_PSF = Ok data
    /\ fs' = A.writeto pixel header fs (A.fits_path self) data hdr.
Proof.
  unfold A.create_artificial_image. intros H.
  destruct (create_background_image g) as [[bg g1] | ]; cbn [bind] in H;
    [ | discriminate].
  destruct create_star_PSF as [psf | ]; cbn [bind] in H; [ | discriminate].
  destruct create_header as [hdr | ]; cbn [bind] in H; [ | discriminate].
  cbn [fst snd] in H.
  destruct (A.ndarray_add pixel pixel_add bg psf) as [data | ] eqn:Hd;
    cbn [bind] in H; [ | discriminate].
  injection H as <- <-. exists bg, psf, hdr, data. repeat split. exact Hd.
Qed.

(** [src/code/AIS/AIS.py], lines 312-330: the file is written with
    [overwrite=True] under a path that depends on the simulator only, so
    of two successive calls the file keeps the image of the second one,
    the sum of the second background and the star, and every other path
    is as it was before the first call. *)
Theorem second_image_replaces_first (self : A.simulator)
    (fs fs1 fs2 : A.filesystem pixel header) (g g1 g2 : rng) :
  A.create_artificial_image pixel header rng pixel_add
    create_background_image create_star_PSF create_header self fs g
  = Ok (fs1, g1) ->
  A.create_artificial_image pixel header rng pixel_add
    create_background_image create_star_PSF create_header self fs1 g1
  = Ok (fs2, g2) ->
  (forall path, path <> A.fits_path self -> fs2 path = fs path)
  /\ exists background star_PSF hdr data,
      create_background_image g1 = Ok (background, g2)
      /\ create_star_PSF = Ok star_PSF
      /\ create_header = Ok hdr
      /\ A.ndarray_add pixel pixel_add background star_PSF = Ok data
      /\ fs2 (A.fits_path self) = Some (data, hdr).
Proof.
  intros H1 H2.
  destruct (create_Ok _ _ _ _ _ H1) as (bg1 & psf1 & hdr1 & data1 & B1 & P1
                                        & Hh1 & D1 & ->).
  destruct (create_Ok _ _ _ _ _ H2) as (bg2 & psf2 & hdr2 & data2 & B2 & P2
                                        & Hh2 & D2 & ->).
  split.
  - intros path Hp. unfold A.writeto.
    destruct (String.eqb_spec path (A.fits_path self));
      [contradiction | reflexivity].
  - exists bg2, psf2, hdr2, data2. repeat split; auto.
    unfold A.writeto. now rewrite String.eqb_refl.
Qed.

End Overwrite.

Lemma second_image_replaces_first_witness :
  exists fs1 fs2,
    A.create_artificial_image Z unit Z Z.add
      (fun g => Ok ([[g]], g + 1)) (Ok [[10]]) (Ok tt)
      Inputs.simulator (fun _ => None) 0 = Ok (fs1, 1)
    /\ A.create_artificial_image Z unit Z Z.add
         (fun g => Ok ([[g]], g + 1)) (Ok [[10]]) (Ok tt)
         Inputs.simulator fs1 1 = Ok (fs2, 2)
    /\ fs2 "other.fits"%string = None.
Proof.
  eexists. eexists. split; [reflexivity | ]. split; [reflexivity | ].
  refine (proj1 (second_image_replaces_first Z unit Z Z.add
                   (fun g => Ok ([[g]], g + 1)) (Ok [[10]]) (Ok tt)
                   Inputs.simulator (fun _ => None) _ _ 0 1 2
                   eq_refl eq_refl) "other.fits"%string _).
  discriminate.
Defined.

(* ================================================================== *)
(** * The exceptions of the validation *)

Section Exceptions.
Import Py.

(** A value of type [int] or [float] compares with a number. *)
Lemma py_lt_number (t v : value) :
  type_in t [ty_float; ty_int] = true -> as_num v <> None ->
  (exists b, py_lt t v = Ok b) /\ (exists b, py_lt v t = Ok b).
Proof.
  intros Ht Hv. unfold py_lt.
  destruct t; try discriminate; destruct (as_num v); try contradiction;
    cbn [as_num]; eauto.
Qed.

(** [src/code/AIS/AIS.py], lines 190-251: [_verify_ccd_operation_mode]
    raises [TypeError] in one case only, when the seven keys are there, no
    key is foreign, [em_mode == 1] and [em_gain] is the class [float] or
    the class [int] itself; numbers, strings and [None] in a mode give
    [ValueError] or [KeyError] but never [TypeError]. *)
Theorem verify_raises_TypeError_exactly (d : dict) :
  A._verify_ccd_operation_mode d = Raise TypeError <->
  (forall k, In k keywords -> exists v, getitem d k = Ok v)
  /\ (forall k, In k (keys d) -> In k keywords)
  /\ exists m t,
      getitem d "em_mode" = Ok m /\ py_eq m (VInt 1) = true
      /\ getitem d "em_gain" = Ok (VType t)
      /\ (t = ty_float \/ t = ty_int).
Proof.
  split.
  - intros H. unfold A._verify_ccd_operation_mode in H.
    destruct (getitem_cases d "em_mode") as [[m Em] | E]; rewrite ?E in H;
      [rewrite Em in H | discriminate].
    destruct (getitem_cases d "em_gain") as [[g Eg] | E]; rewrite ?E in H;
      [rewrite Eg in H | discriminate].
    destruct (getitem_cases d "hss") as [[h Eh] | E]; rewrite ?E in H;
      [rewrite Eh in H | discriminate].
    destruct (getitem_cases d "preamp") as [[p Ep] | E]; rewrite ?E in H;
      [rewrite Ep in H | discriminate].
    destruct (getitem_cases d "binn") as [[b Eb] | E]; rewrite ?E in H;
      [rewrite Eb in H | discriminate].
    destruct (getitem_cases d "t_exp") as [[t Et] | E]; rewrite ?E in H;
      [rewrite Et in H | discriminate].
    destruct (getitem_cases d "ccd_temp") as [[T ET] | E]; rewrite ?E in H;
      [rewrite ET in H | discriminate].
    cbn [bind] in H.
    destruct (for_each _ _) as [u | e] eqn:Ef.
    2:{ destruct (for_each_cases (keys d)
                    (fun key =>
                       raise_if (negb (str_in key
                         ["binn"; "ccd_temp"; "em_gain"; "em_mode"; "hss";
                          "preamp"; "t_exp"]%string)) ValueError) ValueError)
          as [E | E];
          [intros key; apply raise_if_cases | | ];
          rewrite E in Ef; [discriminate | ].
        injection Ef as <-. discriminate. }
    cbn [bind] in H. unfold list_sort in H.
    change (raise_if (py_ne VNone VNone) ValueError) with (Ok tt) in H.
    cbn [bind] in H.
    destruct (py_in m [VInt 0; VInt 1]) eqn:Hm; cbn [negb raise_if bind] in H;
      [ | discriminate].
    destruct (py_eq m (VInt 0)) eqn:E0.
    + exfalso. unfold py_ne in H.
      destruct (py_eq g (VInt 1)); cbn [negb raise_if bind] in H;
        [ | discriminate].
      destruct (py_in p _); cbn [negb raise_if bind] in H; [ | discriminate].
      destruct (py_in h _); cbn [negb raise_if bind] in H; [ | discriminate].
      destruct (py_in b _); cbn [negb raise_if bind] in H; [ | discriminate].
      destruct (type_in t [ty_float; ty_int]) eqn:Ht; cbn [negb] in H;
        [ | discriminate].
      destruct (proj1 (py_lt_number t (VFloat f1e_5) Ht ltac:(discriminate)))
        as [[ | ] Hs]; rewrite Hs in H; cbn [bind raise_if] in H;
        [discriminate | ].
      destruct (type_in T [ty_float; ty_int]) eqn:HT;
        cbn [negb raise_if bind] in H; [ | discriminate].
      unfold py_or, py_gt in H.
      destruct (proj1 (py_lt_number T (VInt (-80)) HT ltac:(discriminate)))
        as [[ | ] H1]; rewrite H1 in H; cbn [bind raise_if] in H;
        [discriminate | ].
      destruct (proj2 (py_lt_number T (VInt 20) HT ltac:(discriminate)))
        as [[ | ] H2]; rewrite H2 in H; cbn [bind raise_if] in H;
        discriminate.
    + destruct (py_in g [VType ty_float; VType ty_int]) eqn:Hg;
        cbn [negb] in H; [ | discriminate].
      assert (Hgt : exists t', g = VType t' /\ (t' = ty_float \/ t' = ty_int)).
      { destruct g as [ | ? | ? | ? | ? | t']; try discriminate.
        exists t'. split; [reflexivity | ].
        destruct t'; try discriminate; auto. }
      destruct Hgt as (t' & -> & Ht').
      split; [ | split].
      * intros k Hk. unfold keywords in Hk. simpl in Hk.
        repeat (destruct Hk as [<- | Hk]; [eauto | ]). contradiction.
      * intros k Hk. destruct (for_each_Ok_inv _ _ _ Ef k Hk) as [u' Hu].
        apply raise_if_Ok in Hu. apply negb_false_iff in Hu.
        apply str_in_In in Hu. now apply sorted_keywords.
      * exists m, t'. repeat split; auto.
        rewrite (em_mode_0_or_1 m Hm), E0. reflexivity.
  - intros (Hall & Hk & m & t & Em & E1 & Eg & Ht).
    unfold A._verify_ccd_operation_mode. rewrite Em, Eg.
    destruct (Hall "hss"%string) as [? ->]; [simpl; tauto | ].
    destruct (Hall "preamp"%string) as [? ->]; [simpl; tauto | ].
    destruct (Hall "binn"%string) as [? ->]; [simpl; tauto | ].
    destruct (Hall "t_exp"%string) as [? ->]; [simpl; tauto | ].
    destruct (Hall "ccd_temp"%string) as [? ->]; [simpl; tauto | ].
    cbn [bind]. rewrite for_each_Ok.
    + cbn [bind]. unfold list_sort.
      change (raise_if (py_ne VNone VNone) ValueError) with (Ok tt).
      cbn [bind].
      assert (E0 : py_eq m (VInt 0) = false)
        by (apply (py_eq_int_other m 1 0); [lia | exact E1]).
      assert (Hm : py_in m [VInt 0; VInt 1] = true).
      { unfold py_in. cbn [existsb]. rewrite E1. now rewrite orb_true_r. }
      rewrite Hm, E0. cbn [negb raise_if bind].
      destruct Ht as [-> | ->]; reflexivity.
    + intros k Hin. apply Hk in Hin. apply sorted_keywords in Hin.
      apply str_in_true in Hin. now rewrite Hin.
Qed.

End Exceptions.

Section Not_a_number.
Import Py.

(** With something that is no number on one side, [<] raises. *)
Lemma py_lt_not_number (v w : value) :
  as_num v = None -> as_num w <> None ->
  py_lt v w = Raise TypeError /\ py_lt w v = Raise TypeError.
Proof.
  intros Hv Hw. unfold py_lt. rewrite Hv.
  destruct (as_num w) eqn:E; [ | contradiction].
  destruct v; try discriminate; destruct w; try discriminate;
    split; reflexivity.
Qed.

(** [src/code/AIS/AIS.py], lines 239-251, against [src/AIS/AIS.py], lines
    231-236: take an accepted mode and put, for [t_exp] or for [ccd_temp],
    a value that is no number.  The first revision tests the type and
    raises [ValueError] (also for a [bool], whose type is neither [int]
    nor [float]); the second compares at once and raises [TypeError]. *)
Theorem not_a_number_by_revision (key : string) (v : value) :
  key = "t_exp"%string \/ key = "ccd_temp"%string ->
  (forall d d',
      A._verify_ccd_operation_mode d = Ok tt ->
      keys d' = keys d ->
      (forall k, k <> key -> getitem d' k = getitem d k) ->
      getitem d' key = Ok v ->
      type_in v [ty_float; ty_int] = false ->
      A._verify_ccd_operation_mode d' = Raise ValueError)
  /\ (forall d d',
         B._verify_ccd_operation_mode d = Ok tt ->
         keys d' = keys d ->
         (forall k, k <> key -> getitem d' k = getitem d k) ->
         getitem d' key = Ok v ->
         as_num v = None ->
         B._verify_ccd_operation_mode d' = Raise TypeError).
Proof.
  intros Hkey. split.
  - intros d d' H Hkeys Hsame Hv Hty.
    apply verify_accepts_exactly in H.
    destruct H as (m & g & h & p & b & t & T & Em & Eg & Eh & Ep & Eb & Et
                   & ET & Hk & E0 & E1 & Hp & Hh & Hb & Ht & Hs & HT
                   & Ho1 & Ho2).
    assert (Hm : py_in m [VInt 0; VInt 1] = true).
    { unfold py_in. cbn [existsb]. now rewrite E0. }
    assert (Hfor : for_each (keys d')
                     (fun key0 =>
                        raise_if (negb (str_in key0
                          ["binn"; "ccd_temp"; "em_gain"; "em_mode"; "hss";
                           "preamp"; "t_exp"]%string)) ValueError) = Ok tt).
    { apply for_each_Ok. intros k Hin. rewrite Hkeys in Hin.
      apply Hk in Hin. apply sorted_keywords in Hin.
      apply str_in_true in Hin. now rewrite Hin. }
    unfold A._verify_ccd_operation_mode. rewrite Hfor.
    destruct Hkey as [-> | ->].
    + rewrite Hv.
      rewrite (Hsame "em_mode"%string), (Hsame "em_gain"%string),
        (Hsame "hss"%string), (Hsame "preamp"%string),
        (Hsame "binn"%string), (Hsame "ccd_temp"%string) by discriminate.
      rewrite Em, Eg, Eh, Ep, Eb, ET. cbn [bind]. unfold list_sort, py_ne.
      change (raise_if (negb (py_eq VNone VNone)) ValueError) with (Ok tt).
      cbn [bind]. rewrite Hm, E0, E1, Hp, Hh, Hb, Hty. reflexivity.
    + rewrite Hv.
      rewrite (Hsame "em_mode"%string), (Hsame "em_gain"%string),
        (Hsame "hss"%string), (Hsame "preamp"%string),
        (Hsame "binn"%string), (Hsame "t_exp"%string) by discriminate.
      rewrite Em, Eg, Eh, Ep, Eb, Et. cbn [bind]. unfold list_sort, py_ne.
      change (raise_if (negb (py_eq VNone VNone)) ValueError) with (Ok tt).
      cbn [bind]. rewrite Hm, E0, E1, Hp, Hh, Hb, Ht, Hs, Hty. reflexivity.
  - intros d d' H Hkeys Hsame Hv Hnum.
    apply first_revision_accepts_exactly in H.
    destruct H as (Hk & m & g & p & h & b & t & T & Em & Eg & Ep & Eh & Eb
                   & Et & ET & Hm & Hg & Hp & Hh & Hb & Hs & Ho1 & Ho2).
    assert (Hfor : for_each (keys d')
                     (fun key0 =>
                        raise_if (negb (str_in key0 B.dic_keywords_list))
                          ValueError) = Ok tt).
    { apply for_each_Ok. intros k Hin. rewrite Hkeys, Hk in Hin.
      apply str_in_true in Hin. now rewrite Hin. }
    assert (Hgain :
              (if py_eq m (VInt 0)
               then raise_if (py_ne g (VInt 1)) ValueError
               else let* out := py_or (py_lt g (VInt 2))
                                      (py_gt g (VInt 300)) in
                    raise_if out ValueError) = Ok tt).
    { destruct (py_eq m (VInt 0)).
      - unfold py_ne. now rewrite Hg.
      - now rewrite (proj2 (py_or_false _ _) Hg). }
    unfold B._verify_ccd_operation_mode. rewrite Hfor. cbn [bind].
    rewrite Hkeys, (proj2 (list_ne_false _ _) Hk). cbn [raise_if bind].
    destruct Hkey as [-> | ->].
    + rewrite Hv.
      rewrite (Hsame "em_mode"%string), (Hsame "em_gain"%string),
        (Hsame "hss"%string), (Hsame "preamp"%string),
        (Hsame "bin"%string), (Hsame "ccd_temp"%string) by discriminate.
      rewrite Em, Eg, Eh, Ep, Eb, ET. cbn [bind]. rewrite Hm.
      cbn [negb raise_if bind]. rewrite Hgain. cbn [bind].
      rewrite Hp, Hh, Hb. cbn [negb raise_if bind].
      now rewrite (proj1 (py_lt_not_number v (VFloat f1e_5) Hnum
                            ltac:(discriminate))).
    + rewrite Hv.
      rewrite (Hsame "em_mode"%string), (Hsame "em_gain"%string),
        (Hsame "hss"%string), (Hsame "preamp"%string),
        (Hsame "bin"%string), (Hsame "t_exp"%string) by discriminate.
      rewrite Em, Eg, Eh, Ep, Eb, Et. cbn [bind]. rewrite Hm.
      cbn [negb raise_if bind]. rewrite Hgain. cbn [bind].
      rewrite Hp, Hh, Hb, Hs. cbn [negb raise_if bind]. unfold py_or.
      now rewrite (proj1 (py_lt_not_number v (VInt (-80)) Hnum
                            ltac:(discriminate))).
Qed.

Lemma not_a_number_by_revision_witness :
  A._verify_ccd_operation_mode Inputs.string_exposure = Raise ValueError
  /\ B._verify_ccd_operation_mode Inputs.string_exposure_bin
     = Raise TypeError.
Proof.
  pose proof (not_a_number_by_revision "t_exp" (VStr "1") (or_introl eq_refl))
    as [HA HB].
  split.
  - apply (HA Inputs.conventional Inputs.string_exposure);
      try reflexivity.
    intros k Hk. unfold getitem. simpl.
    repeat match goal with
           | |- context [String.eqb k ?s] =>
               destruct (String.eqb_spec k s); [try reflexivity | ]
           end; try reflexivity.
    now subst.
  - apply (HB Inputs.conventional_bin Inputs.string_exposure_bin);
      try reflexivity.
    intros k Hk. unfold getitem. simpl.
    repeat match goal with
           | |- context [String.eqb k ?s] =>
               destruct (String.eqb_spec k s); [try reflexivity | ]
           end; try reflexivity.
    now subst.
Defined.

End Not_a_number.

(* ================================================================== *)
(** * The channel and its workbook *)

Section Channel_selection.
Import Py.
Import Selection.

Lemma py_eq_int_int (a b : Z) : py_eq (VInt a) (VInt b) = (a =? b).
Proof.
  unfold py_eq. simpl.
  destruct (Z.compare_spec a b), (Z.eqb_spec a b); (lia || reflexivity).
Qed.

(** [src/code/AIS/AIS.py], lines 147-151 and 174-182, with
    [src/code/CHC/channel_creator.py]: a channel passes the check exactly
    when a branch of the selection fires, so [CHC] is never left at 0; the
    class selected is a concrete one whose [_CHANNEL_ID] is equal to the
    channel and whose serial number is 9913 plus that number.  For an
    [int] channel the workbook of [_configure_gain] lies in the directory
    that [get_channel_ID] of the selected class names; the channel [True]
    is accepted as well and selects channel 1, but its workbook is looked
    for under [Channel True]. *)
Theorem channel_selection (ch : value) :
  (A.check_channel ch = Ok ch <-> exists c, CHC_class ch = Some c)
  /\ (forall c, CHC_class ch = Some c ->
        c <> CHC.Abstract_Channel_Creator
        /\ py_eq ch (VInt (CHC._CHANNEL_ID c)) = true
        /\ CHC._SERIAL_NUMBER c = 9913 + CHC._CHANNEL_ID c)
  /\ (forall c n repr_float T acquisition_mode,
        ch = VInt n -> CHC_class ch = Some c ->
        A.spreadsheet_path repr_float ch
        = workbook_of
            (CHC.get_channel_ID (CHC.__init__ c T acquisition_mode)))
  /\ (forall repr_float T acquisition_mode,
        A.check_channel (VBool true) = Ok (VBool true)
        /\ CHC_class (VBool true) = Some CHC.Concrete_Channel_1
        /\ A.spreadsheet_path repr_float (VBool true)
           = workbook_of "Channel True"
        /\ CHC.get_channel_ID
             (CHC.__init__ CHC.Concrete_Channel_1 T acquisition_mode)
           = "Channel 1"%string).
Proof.
  split; [ | split; [ | split]].
  - unfold A.check_channel, py_in, CHC_class. cbn [existsb].
    rewrite orb_false_r.
    destruct (py_eq ch (VInt 1)); [split; eauto | ].
    destruct (py_eq ch (VInt 2)); [split; eauto | ].
    destruct (py_eq ch (VInt 3)); [split; eauto | ].
    destruct (py_eq ch (VInt 4)); [split; eauto | ].
    cbn. split; [discriminate | intros [c H]; discriminate].
  - intros c. unfold CHC_class.
    destruct (py_eq ch (VInt 1)) eqn:E1.
    { intros [= <-]. repeat split; (discriminate || assumption || auto). }
    destruct (py_eq ch (VInt 2)) eqn:E2.
    { intros [= <-]. repeat split; (discriminate || assumption || auto). }
    destruct (py_eq ch (VInt 3)) eqn:E3.
    { intros [= <-]. repeat split; (discriminate || assumption || auto). }
    destruct (py_eq ch (VInt 4)) eqn:E4.
    { intros [= <-]. repeat split; (discriminate || assumption || auto). }
    discriminate.
  - intros c n rf T am -> . unfold CHC_class. rewrite !py_eq_int_int.
    destruct (Z.eqb_spec n 1) as [-> | _]; [intros [= <-]; reflexivity | ].
    destruct (Z.eqb_spec n 2) as [-> | _]; [intros [= <-]; reflexivity | ].
    destruct (Z.eqb_spec n 3) as [-> | _]; [intros [= <-]; reflexivity | ].
    destruct (Z.eqb_spec n 4) as [-> | _]; [intros [= <-]; reflexivity | ].
    discriminate.
  - intros rf T am. repeat split.
Qed.

End Channel_selection.

(* ================================================================== *)
(** * The image name as an encoding *)

Section Name_encoding.
Import Py.
Import Selection.

Lemma no_underscore_app (a b : string) :
  no_underscore (a ++ b) <-> no_underscore a /\ no_underscore b.
Proof.
  unfold no_underscore. induction a as [ | c a IH]; simpl.
  - tauto.
  - tauto.
Qed.

(** A string is cut in one way only at its first [_]. *)
Lemma cut_at_underscore (a a' r r' : string) :
  no_underscore a -> no_underscore a' ->
  (a ++ String "_" r = a' ++ String "_" r')%string -> a = a' /\ r = r'.
Proof.
  unfold no_underscore. revert a'.
  induction a as [ | c a IH]; intros [ | c' a']; simpl; intros Ha Ha' H.
  - injection H as ->. auto.
  - injection H as <- _. tauto.
  - injection H as -> _. tauto.
  - injection H as -> H.
    destruct (IH a') as [-> ->]; auto.
Qed.

Lemma digits_no_underscore (d : Decimal.uint) :
  no_underscore (NilEmpty.string_of_uint d).
Proof.
  unfold no_underscore.
  induction d; simpl;
    [ intros [] | intros [H | H]; [discriminate | auto] .. ].
Qed.

(** The decimal digits of an integer hold no [_], and give it back. *)
Lemma str_int_no_underscore (n : Z) : no_underscore (str_int n).
Proof.
  unfold str_int, NilZero.string_of_int, NilZero.string_of_uint.
  destruct (Z.to_int n) as [d | d].
  - destruct d; try apply (digits_no_underscore (_ _)).
    unfold no_underscore. simpl. intros [H | H]; [discriminate | exact H].
  - assert (H : forall s, no_underscore s -> no_underscore (String "-" s)).
    { unfold no_underscore. simpl. intros s Hs [H | H];
        [discriminate | auto]. }
    apply H.
    destruct d; try apply (digits_no_underscore (_ _)).
    unfold no_underscore. simpl. intros [H' | H']; [discriminate | exact H'].
Qed.

Lemma str_int_inj (n n' : Z) : str_int n = str_int n' -> n = n'.
Proof.
  intros H. apply DecimalZ.to_int_inj.
  assert (Hp : forall z, NilZero.int_of_string (str_int z) = Some (Z.to_int z)).
  { intros z. unfold str_int. apply NilZero.isi.
    - destruct z; simpl; try discriminate.
      intros [= E]. now apply DecimalPos.Unsigned.to_uint_nonnil in E.
    - destruct z; simpl; try discriminate.
      intros [= E]. now apply DecimalPos.Unsigned.to_uint_nonnil in E. }
  pose proof (Hp n) as H1. rewrite H, Hp in H1. now injection H1.
Qed.

(** What is no string prints without [_], if floats do. *)
Lemma str_no_underscore (repr_float : float -> string) (v : value) :
  (forall f, no_underscore (repr_float f)) ->
  type_of v <> ty_str -> no_underscore (str repr_float v).
Proof.
  intros Hf Hv. destruct v as [ | [ | ] | n | f | s | t]; cbn [str].
  - unfold no_underscore. simpl. intuition discriminate.
  - unfold no_underscore. simpl. intuition discriminate.
  - unfold no_underscore. simpl. intuition discriminate.
  - apply str_int_no_underscore.
  - apply Hf.
  - now destruct Hv.
  - destruct t; unfold no_underscore; simpl; intuition discriminate.
Qed.

Lemma py_in_not_str (v : value) (l : list value) :
  (forall x, In x l -> type_of x <> ty_str) ->
  py_in v l = true -> type_of v <> ty_str.
Proof.
  intros Hl H. unfold py_in in H. apply existsb_exists in H.
  destruct H as (x & Hx & E). specialize (Hl x Hx).
  destruct v; cbn; try discriminate.
  destruct x; try discriminate E. now destruct Hl.
Qed.

Lemma type_in_not_str (v : value) :
  type_in v [ty_float; ty_int] = true -> type_of v <> ty_str.
Proof. destruct v; cbn; discriminate. Qed.

(** [src/code]: the exposure time of an accepted mode is an [int] or a
    [float]. *)
Lemma A_verify_Ok_t_exp (d : dict) (u : unit) (t : value) :
  A._verify_ccd_operation_mode d = Ok u -> getitem d "t_exp" = Ok t ->
  type_in t [ty_float; ty_int] = true.
Proof.
  intros H Et'.
  destruct (A_verify_Ok d u H)
    as (m & g & h & p & b & t' & T & Em & Eg & Eh & Ep & Eb & Et & ET
        & E0 & E1 & Hp & Hh & Hb).
  rewrite Et' in Et. injection Et as <-.
  unfold A._verify_ccd_operation_mode in H.
  rewrite Em, Eg, Eh, Ep, Eb, Et', ET in H. cbn [bind] in H.
  destruct (for_each _ _); cbn [bind] in H; [ | discriminate].
  destruct (raise_if (py_ne _ _) _); cbn [bind] in H; [ | discriminate].
  destruct (raise_if (negb (py_in m _)) _); cbn [bind] in H;
    [ | discriminate].
  unfold py_ne in H. rewrite E0, E1, Hp, Hh, Hb in H.
  cbn [negb raise_if bind] in H.
  destruct (type_in t [ty_float; ty_int]); [reflexivity | discriminate].
Qed.

(** [src/code/AIS/AIS.py], lines 190-251 and 257-282: for a rendering of
    floats without [_], the image name of an accepted mode can be read
    back.  Two accepted modes with the same name have the same rendering
    of [hss], [preamp], [binn], [t_exp] and [em_gain], and where both hold
    an [int] for one of these, the same [int].  The temperature is no
    part of the name: two modes that differ at [ccd_temp] only have one
    name (and one file, written twice). *)
Theorem image_name_decodes (repr_float : float -> string) (d d' : dict)
    (sf sf' : value) (name : string) :
  (forall f, no_underscore (repr_float f)) ->
  A._verify_ccd_operation_mode d = Ok tt ->
  A._verify_ccd_operation_mode d' = Ok tt ->
  A._configure_image_name repr_float sf d false = Ok name ->
  (A._configure_image_name repr_float sf' d' false = Ok name ->
   forall k, In k ["hss"; "preamp"; "binn"; "t_exp"; "em_gain"]%string ->
     exists v v',
       getitem d k = Ok v /\ getitem d' k = Ok v'
       /\ str repr_float v = str repr_float v'
       /\ (forall n n', v = VInt n -> v' = VInt n' -> n = n'))
  /\ ((forall k, k <> "ccd_temp"%string -> getitem d k = getitem d' k) ->
      A._configure_image_name repr_float sf' d' false = Ok name).
Proof.
  intros Hf Hd Hd' Hn. split.
  - intros Hn'.
    destruct (A_verify_Ok d tt Hd)
      as (m & g & h & p & b & t & T & Em & Eg & Eh & Ep & Eb & Et & _
          & E0 & E1 & Hp & Hh & Hb).
    destruct (A_verify_Ok d' tt Hd')
      as (m' & g' & h' & p' & b' & t' & T' & Em' & Eg' & Eh' & Ep' & Eb'
          & Et' & _ & E0' & E1' & Hp' & Hh' & Hb').
    pose proof (A_verify_Ok_t_exp d tt t Hd Et) as Ht.
    pose proof (A_verify_Ok_t_exp d' tt t' Hd' Et') as Ht'.
    assert (Hl12 : forall x, In x [VInt 1; VInt 2] -> type_of x <> ty_str).
    { intros x [<- | [<- | []]]; discriminate. }
    assert (Hl5 : forall x,
               In x [VFloat f0_1; VInt 1; VInt 10; VInt 20; VInt 30] ->
               type_of x <> ty_str).
    { intros x [<- | [<- | [<- | [<- | [<- | []]]]]]; discriminate. }
    assert (Nh := str_no_underscore repr_float h Hf
                    (py_in_not_str h _ Hl5 Hh)).
    assert (Nh' := str_no_underscore repr_float h' Hf
                     (py_in_not_str h' _ Hl5 Hh')).
    assert (Np := str_no_underscore repr_float p Hf
                    (py_in_not_str p _ Hl12 Hp)).
    assert (Np' := str_no_underscore repr_float p' Hf
                     (py_in_not_str p' _ Hl12 Hp')).
    assert (Nb := str_no_underscore repr_float b Hf
                    (py_in_not_str b _ Hl12 Hb)).
    assert (Nb' := str_no_underscore repr_float b' Hf
                     (py_in_not_str b' _ Hl12 Hb')).
    assert (Nt := str_no_underscore repr_float t Hf (type_in_not_str t Ht)).
    assert (Nt' := str_no_underscore repr_float t' Hf
                     (type_in_not_str t' Ht')).
    assert (M1 : py_eq m (VInt 1) = false).
    { rewrite em_mode_0_or_1; [now rewrite E0 | ].
      unfold py_in. cbn [existsb]. now rewrite E0. }
    assert (M1' : py_eq m' (VInt 1) = false).
    { rewrite em_mode_0_or_1; [now rewrite E0' | ].
      unfold py_in. cbn [existsb]. now rewrite E0'. }
    unfold A._configure_image_name in Hn, Hn'.
    rewrite Eg, Em, Eh, Ep, Eb, Et in Hn.
    rewrite Eg', Em', Eh', Ep', Eb', Et' in Hn'.
    cbn [bind] in Hn, Hn'. rewrite M1 in Hn. rewrite M1' in Hn'.
    rewrite <- Hn in Hn'. injection Hn' as Hs.
    repeat rewrite append_assoc in Hs. cbn [append] in Hs.
    apply cut_at_underscore in Hs; [ | assumption | assumption ].
    destruct Hs as [Sh Hs]. injection Hs as Hs.
    apply cut_at_underscore in Hs; [ | assumption | assumption ].
    destruct Hs as [Sp Hs]. injection Hs as Hs.
    apply cut_at_underscore in Hs; [ | assumption | assumption ].
    destruct Hs as [Sb Hs]. injection Hs as Hs.
    apply cut_at_underscore in Hs; [ | assumption | assumption ].
    destruct Hs as [St Hs]. injection Hs as Sg.
    assert (Hint : forall v v', str repr_float v = str repr_float v' ->
                     forall n n', v = VInt n -> v' = VInt n' -> n = n').
    { intros v v' E n n' -> ->. now apply str_int_inj. }
    symmetry in Sh. symmetry in Sp. symmetry in Sb. symmetry in St.
    symmetry in Sg.
    intros k [<- | [<- | [<- | [<- | [<- | []]]]]].
    + exists h, h'. repeat split; auto. now apply Hint.
    + exists p, p'. repeat split; auto. now apply Hint.
    + exists b, b'. repeat split; auto. now apply Hint.
    + exists t, t'. repeat split; auto. now apply Hint.
    + exists g, g'. repeat split; auto. now apply Hint.
  - intros Hsame. rewrite <- Hn. unfold A._configure_image_name.
    repeat (rewrite <- Hsame by discriminate). reflexivity.
Qed.

Lemma image_name_decodes_witness :
  exists v v',
    getitem Inputs.conventional "t_exp" = Ok v
    /\ getitem Inputs.nan_temperature "t_exp" = Ok v'
    /\ str Inputs.repr_float v = str Inputs.repr_float v'
    /\ (forall n n', v = VInt n -> v' = VInt n' -> n = n').
Proof.
  refine (proj1 (image_name_decodes Inputs.repr_float Inputs.conventional
                   Inputs.nan_temperature (VInt 100) (VInt 100)
                   "CONV_HSS1_PA1_B1_TEXP1_G1" _ _ _ _) _ "t_exp"%string _).
  - intros f. unfold no_underscore. simpl.
    intros [H | []]. discriminate H.
  - vm_compute. reflexivity.
  - vm_compute. reflexivity.
  - vm_compute. reflexivity.
  - vm_compute. reflexivity.
  - simpl. tauto.
Defined.

End Name_encoding.
